(* ===== verification/_CoqProject ===== *)
-Q . S2P
Prelude.v
PyStr.v
RosterSpec.v
AllData.v
Housemates.v
Cohorts.v
Houses.v
Dupes.v
