(* ===== verification/Prelude.v ===== *)
(** * A verification library for [src/cohort_data.py]

    ** The program

    [src/cohort_data.py] answers seven read-only queries over a data file
    of lines [first|last|house|advisor|cohort].  Every query opens the
    file, iterates over its lines, splits each (after [rstrip], except in
    [all_houses]) on ['|'], reads fields by index (raising [IndexError] on a
    short line), and builds a set, a list, seven lists, or an option.  The
    only interaction between queries is that [get_housemates_for] calls
    [all_data] twice.  There is no other shared state.

    ** The files and what they model

    - [Prelude.v] (this file): Python exceptions as values ([PyExc], the
      result type [res] with stdpp's monad notation [x ← c; k]), list
      indexing [l.[i]] ([py_index], raising [IndexError] out of range), the
      [for] loop with an accumulator ([py_for]), the [roster] hint
      databases and the [res_inv] tactic, and the generic lemmas on loops
      (invariant rule [py_for_invariant], loops that read one field
      [py_for_read], loops that build lists and sets).
    - [PyStr.v]: the builtins: [str.split] ([py_split]), [str.rstrip]
      ([py_rstrip], with Python's whitespace set), iteration over a text
      file ([py_lines]), the full-name f-string ([py_full_name]), string
      truthiness, [line.rstrip().split('|')] ([fields]) and [sorted]: the
      interface [PySort] (ordered permutation) with its implementation
      [py_sorted] (stdpp's merge sort) and a second one (insertion sort).
    - [RosterSpec.v], Module [Roster]: the spec's abstract roster (spec
      sections 4.1 and 9, "parse once, query many"): [entry], [parse_entry],
      [parse_roster], the writer [render_roster], and one pure function per
      query ([rows], [housemates], [cohort_roster], [cohort_of], [houses],
      [names_by_house], [duped]).  It holds the loop-simulation lemmas
      ([py_for_parsed], [py_for_unparsed]) that turn each query's loop into
      a fold over the parsed entries, and the sample data file.
    - [AllData.v], Module [AllData]: [all_data] (lines 149-181).
    - [Housemates.v], Module [Housemates]: [get_housemates_for] (lines
      244-293): [find_target] is the first loop with its [break],
      [housemates_body] the second loop's body; proved against
      [AllData.all_data_spec] only.
    - [Cohorts.v], Modules [StudentsByCohort] (lines 33-77) and
      [CohortFor] ([get_cohort_for], lines 184-212, a [Fixpoint] for the
      loop with early [return]).
    - [Houses.v], Modules [AllHouses] (lines 4-30) and [NamesByHouse]
      (lines 80-146).  In [all_names_by_house] the seven named lists are the
      entries of [rosters] (Python aliases them), so the state is [rosters]
      and [dumbledores_army], ..., [instructors] are positions in it.
    - [Dupes.v], Module [DupedLastNames]: [find_duped_last_names] (lines
      214-241), with its loop invariant [dupes_invariant].

    Each loop body is a definition [<query>_body] of the same shape as the
    Python body (the same field reads in the same order, the same
    [if]/[elif] chain), and each query is [py_for] of its body followed by
    what the function does after the loop.

    ** The theorems

    - Refinement: each query, on a file whose lines all have five fields or
      more, equals its abstract function of [RosterSpec.Roster] on the
      parsed entries ([*_correct]); [students_by_cohort] does so unless the
      cohort asked for and some line's cohort are both ["All"].
    - Exact behaviour on every file, errors included ([*_exact],
      [*_unparsed], [get_cohort_for_raises]): which files make a query raise
      [IndexError], and what [all_houses] and [find_duped_last_names] return
      on files the other queries reject.
    - Invariants and shapes: [all_houses] never holds [""]; the
      [find_duped_last_names] loop invariant; [all_names_by_house] returns
      seven sorted rosters and files each line at most once.
    - Safety and relations: [get_housemates_for] never returns the name
      asked for, and is symmetric when full names are distinct (with
      namesakes it need not be: the target is the first line of the name);
      [get_cohort_for] has first-match semantics.
    - Counting: under the default cohort ["All"], [students_by_cohort]
      lists a line of cohort ["All"] twice and a line of a one-letter cohort
      never ([students_by_cohort_All_count], a defect); the spec's union
      property of section 8 when no cohort is ["All"].
    - Bounds: [find_duped_last_names] returns at most half as many names as
      the file has lines ([Roster.occurrences_sum]: distinct names occur, in
      total, at most once per line).
    - Independence from the order of the lines: [students_by_cohort] and
      [all_names_by_house] give the same result, errors included, on any
      permutation of the file (proved through [Proper] instances of the
      sort and of the abstract rosters under [≡ₚ]).
    - Round trip: writing entries and parsing the file gives them back.
    - The sort interface determines the sort: any ordered permutation is
      [py_sorted] ([PySort_unique]), so the model's merge sort stands for
      Python's Timsort on strings.

    ** Bounds and what is not modelled

    All loops are structural recursion over the list of lines: no fuel is
    needed and every query terminates.  Python [str] is modelled by Stdlib
    strings of 8-bit code points (whitespace for [rstrip] is the set of
    [str.isspace] below 256); [open(filename)] is not modelled: a file is
    the text it holds after universal-newline decoding, and a missing file
    is outside the model.  The file handles the program never closes and
    the doctest driver ([__main__]) are not modelled.

    ** Plan for extending the development

    Modelled so far, in order of importance: [get_housemates_for] (with
    [all_data]), [students_by_cohort], [all_names_by_house],
    [get_cohort_for], [find_duped_last_names], [all_houses], and the
    builtins they call.  Next: independence from the order of the lines for
    [all_houses] and [find_duped_last_names]; the exact effect of namesakes
    on [get_housemates_for]; [all_data] has one row per line; and the file
    handles the queries open and never close, as explicit state (a count of
    open handles threaded through a sequence of queries). *)

From Stdlib Require Export Ascii String.
From stdpp Require Export base list gmap strings sorting.

(** stdpp makes [String.append] opaque to [simpl]; the models compute with
    it, so it unfolds again when its first argument is a constructor. *)
#[global] Arguments String.append : simpl nomatch.

(** ** Python exceptions as values *)

(** The only exception the modelled code can raise on a readable file is
    [IndexError], from [data[i]] on a line with too few fields. *)
Inductive PyExc := IndexError.

#[export] Instance PyExc_eq_dec : EqDecision PyExc.
Proof. solve_decision. Defined.

(** A Python expression evaluates to a value or raises. *)
Inductive res (A : Type) : Type :=
| Ok (a : A)
| Err (e : PyExc).
Arguments Ok {A} a.
Arguments Err {A} e.

#[export] Instance res_ret : MRet res := @Ok.
#[export] Instance res_bind : MBind res := fun A B k c =>
  match c with Ok a => k a | Err e => Err e end.
#[export] Instance res_fmap : FMap res := fun A B f c =>
  match c with Ok a => Ok (f a) | Err e => Err e end.

Declare Scope py_scope.
Delimit Scope py_scope with py.
Open Scope py_scope.

(** [data[i]]: Python list indexing, raising [IndexError] out of range. *)
Definition py_index {A} (l : list A) (i : nat) : res A :=
  match l !! i with Some x => Ok x | None => Err IndexError end.
Notation "l '.[' i ']'" := (py_index l i) (at level 1, i at level 200,
  format "l .[ i ]") : py_scope.

(** [for x in xs: body] with an accumulator: the loop stops at the first
    exception the body raises. *)
Fixpoint py_for {A B} (body : B -> A -> res B) (xs : list A) (acc : B) : res B :=
  match xs with
  | [] => Ok acc
  | x :: xs' => acc' ← body acc x; py_for body xs' acc'
  end.

(** ** The development's automation *)

Create HintDb roster discriminated.
Create Rewrite HintDb roster_rw.

(** Split a hypothesis [(x ← c; k) = Ok v] or [= Err e] on the value of [c]. *)
Ltac res_inv :=
  repeat match goal with
  | H : (_ ← ?c; _) = _ |- _ =>
      lazymatch c with Ok _ => fail | Err _ => fail | _ => idtac end;
      let E := fresh "E" in destruct c eqn:E; cbn [mbind res_bind] in H;
      try discriminate H
  | H : Ok _ = Ok _ |- _ => injection H; clear H; intros H; try subst
  | H : Err _ = Ok _ |- _ => discriminate H
  | H : Ok _ = Err _ |- _ => discriminate H
  end.

(** ** Generic lemmas *)

Lemma str_app_nil_r (s : string) : String.append s EmptyString = s.
Proof. induction s; cbn; congruence. Qed.

Lemma str_app_assoc (s1 s2 s3 : string) :
  String.append s1 (String.append s2 s3) = String.append (String.append s1 s2) s3.
Proof. induction s1; cbn; congruence. Qed.

#[export] Hint Rewrite str_app_nil_r : roster_rw.

Lemma bind_Ok {A B} (c : res A) (k : A -> res B) v :
  (x ← c; k x) = Ok v <-> exists a, c = Ok a /\ k a = Ok v.
Proof. destruct c; cbn; naive_solver. Qed.

Lemma py_index_Ok {A} (l : list A) i x : l.[i] = Ok x <-> l !! i = Some x.
Proof. unfold py_index. destruct (l !! i); naive_solver. Qed.

Lemma py_index_Err {A} (l : list A) i e : l.[i] = Err e <-> length l <= i.
Proof.
  unfold py_index. destruct (l !! i) eqn:E.
  - split; [done|]. apply lookup_lt_Some in E. lia.
  - apply lookup_ge_None in E. destruct e. naive_solver.
Qed.

Lemma py_index_lt {A} (l : list A) i : i < length l -> exists x, l.[i] = Ok x.
Proof.
  intros Hi. destruct (lookup_lt_is_Some_2 l i Hi) as [x Hx].
  exists x. by apply py_index_Ok.
Qed.

#[export] Hint Resolve py_index_lt : roster.

Lemma py_for_app {A B} (body : B -> A -> res B) xs ys acc :
  py_for body (xs ++ ys) acc = (acc' ← py_for body xs acc; py_for body ys acc').
Proof.
  revert acc. induction xs as [|x xs IH]; intros acc; [done|].
  cbn. destruct (body acc x); cbn; auto.
Qed.

(** A loop whose body never raises is a left fold. *)
Lemma py_for_pure {A B} (f : B -> A -> B) xs acc :
  py_for (fun b a => Ok (f b a)) xs acc = Ok (foldl f acc xs).
Proof. revert acc. induction xs; cbn; auto. Qed.

#[export] Hint Rewrite @py_for_app @py_for_pure : roster_rw.

(** A loop that appends [f x] for each [x] builds [map f]. *)
Lemma foldl_snoc_map {A B} (f : A -> B) (l : list A) acc :
  foldl (fun acc x => acc ++ [f x]) acc l = acc ++ map f l.
Proof.
  revert acc. induction l as [|x l IH]; intros acc; cbn; [by rewrite app_nil_r|].
  rewrite IH. by rewrite <- app_assoc.
Qed.

(** A loop that appends [f x] for each [x] satisfying [P] builds
    [map f (filter P l)]. *)
Lemma foldl_snoc_filter {A B} (P : A -> Prop) `{!forall x, Decision (P x)}
    (f : A -> B) (l : list A) acc :
  foldl (fun acc x => if decide (P x) then acc ++ [f x] else acc) acc l =
  acc ++ (f <$> filter P l).
Proof.
  revert acc. induction l as [|x l IH]; intros acc; cbn [foldl]; [by rewrite app_nil_r|].
  rewrite filter_cons, IH. destruct (decide (P x)); cbn; [|done].
  by rewrite <- app_assoc.
Qed.

(** Filters that agree on the elements of [l] select the same elements. *)
Lemma filter_Forall_iff {A} (P1 P2 : A -> Prop)
    `{!forall x, Decision (P1 x), !forall x, Decision (P2 x)} (l : list A) :
  Forall (fun x => P1 x <-> P2 x) l -> filter P1 l = filter P2 l.
Proof.
  induction 1 as [|x l Hx _ IH]; [done|]. rewrite !filter_cons, IH.
  by destruct (decide (P1 x)), (decide (P2 x)); naive_solver.
Qed.

Lemma filter_Forall_not {A} (P : A -> Prop) `{!forall x, Decision (P x)} (l : list A) :
  Forall (fun x => ~ P x) l -> filter P l = [].
Proof.
  induction 1 as [|x l Hx _ IH]; [done|]. by rewrite filter_cons_False.
Qed.

(** Two filters that never both hold select, together, the elements
    satisfying either. *)
Lemma filter_app_disjoint {A} (P Q : A -> Prop)
    `{!forall x, Decision (P x), !forall x, Decision (Q x)} (l : list A) :
  (forall x, P x -> Q x -> False) ->
  filter P l ++ filter Q l ≡ₚ filter (fun x => P x \/ Q x) l.
Proof.
  intros Hdisj. induction l as [|x l IH]; [done|]. rewrite !filter_cons.
  destruct (decide (P x)), (decide (Q x)); try naive_solver.
  - rewrite decide_True by auto. cbn. by constructor.
  - rewrite decide_True by auto. rewrite <- Permutation_middle. by constructor.
  - by rewrite decide_False by naive_solver.
Qed.

Lemma concat_fmap_Permutation {A B} (f g : A -> list B) (l : list A) :
  (forall x, f x ≡ₚ g x) -> concat (f <$> l) ≡ₚ concat (g <$> l).
Proof. intros Hfg. induction l as [|x l IH]; cbn; [done|]. by rewrite Hfg, IH. Qed.

Lemma foldl_map {A B C} (body : C -> B -> C) (g : A -> B) (l : list A) acc :
  foldl body acc (map g l) = foldl (fun acc x => body acc (g x)) acc l.
Proof. revert acc. induction l; cbn; auto. Qed.

Section set_builder.
Context `{Countable K} {A : Type} (P : A -> Prop) `{!forall x, Decision (P x)}.
Context (f : A -> K) (body : gset K -> A -> gset K).
Hypothesis body_spec : forall s x, body s x = if decide (P x) then {[f x]} ∪ s else s.

(** A loop that adds [f x] to a set for each [x] satisfying [P] builds
    the image of the filtered list. *)
Lemma foldl_set_builder (l : list A) (s : gset K) :
  foldl body s l = s ∪ list_to_set (f <$> filter P l).
Proof.
  revert s. induction l as [|x l IH]; intros s; cbn [foldl]; [set_solver|].
  rewrite filter_cons, IH, body_spec. destruct (decide (P x)); cbn; set_solver.
Qed.
End set_builder.

(** The loop raises exactly when some iteration raises. *)
Lemma py_for_Err {A B} (body : B -> A -> res B) xs acc e :
  py_for body xs acc = Err e ->
  exists pre x post acc', xs = pre ++ x :: post /\
    py_for body pre acc = Ok acc' /\ body acc' x = Err e.
Proof.
  revert acc. induction xs as [|x xs IH]; intros acc H; cbn in H; [done|].
  destruct (body acc x) as [acc'|e'] eqn:Eb; cbn in H.
  - destruct (IH _ H) as (pre & y & post & acc'' & -> & Hpre & Hy).
    exists (x :: pre), y, post, acc''. cbn. rewrite Eb. done.
  - destruct e, e'. exists [], x, xs, acc. done.
Qed.

Section loop_invariant.
Context {A B : Type} (body : B -> A -> res B) (I : B -> Prop).
Hypothesis body_pres : forall acc x acc', I acc -> body acc x = Ok acc' -> I acc'.

(** Rule of the [for] loop: an invariant of the body is one of the loop. *)
Lemma py_for_invariant xs acc r : I acc -> py_for body xs acc = Ok r -> I r.
Proof.
  revert acc. induction xs as [|x xs IH]; intros acc HI H; cbn in H.
  - by injection H as <-.
  - destruct (body acc x) eqn:E; cbn in H; [|done]. eauto.
Qed.
End loop_invariant.

(** The same rule, for a body that preserves the invariant on the elements
    the loop runs over. *)
Lemma py_for_invariant_in {A B} (body : B -> A -> res B) (I : B -> Prop) xs acc r :
  (forall acc x acc', x ∈ xs -> I acc -> body acc x = Ok acc' -> I acc') ->
  I acc -> py_for body xs acc = Ok r -> I r.
Proof.
  revert acc. induction xs as [|x xs IH]; intros acc Hpres HI H; cbn in H.
  - by injection H as <-.
  - destruct (body acc x) as [acc'|] eqn:E; cbn in H; [|done].
    apply (IH acc'); [|apply (Hpres acc x acc'); [apply elem_of_cons; by left|done..]|done].
    intros a y a' Hy. apply Hpres. apply elem_of_cons. by right.
Qed.

Section read_loop.
Context {A B C : Type} (f : A -> list C) (i : nat) (h : B -> C -> B).
Context (body : B -> A -> res B).
Hypothesis body_read : forall acc x, body acc x = (c ← (f x).[i]; Ok (h acc c)).

(** A loop whose body reads [f x][i] and steps with it is a fold over
    the values read, or raises when one of them is missing. *)
Lemma py_for_read xs acc :
  py_for body xs acc =
  match mapM (fun x => f x !! i) xs with
  | Some cs => Ok (foldl h acc cs)
  | None => Err IndexError
  end.
Proof.
  revert acc. induction xs as [|x xs IH]; intros acc; [done|].
  cbn [py_for mapM]. rewrite body_read. unfold py_index.
  destruct (f x !! i) as [c|]; cbn [mbind res_bind option_bind]; [|done].
  rewrite IH. by destruct (mapM _ xs).
Qed.
End read_loop.

(** A loop succeeds when every iteration does. *)
Lemma py_for_total {A B} (body : B -> A -> res B) xs acc :
  (forall acc x, x ∈ xs -> exists acc', body acc x = Ok acc') ->
  exists r, py_for body xs acc = Ok r.
Proof.
  revert acc. induction xs as [|x xs IH]; intros acc H; cbn; [eauto|].
  destruct (H acc x) as [acc' ->]; [set_solver|]. cbn.
  apply IH. intros. apply H. set_solver.
Qed.
