(* ===== verification/PyStr.v ===== *)
(** * Python string primitives called by [src/cohort_data.py]

    Strings are Stdlib [string]s (sequences of 8-bit code points).  This file
    models the builtins the program calls: [str.split(sep)] for a
    one-character separator, [str.rstrip()], iteration over the lines of a
    text file, the f-string that builds a full name and [sorted] on lists of
    strings (as an interface, [PySort], implemented by the merge sort of the
    model and by an insertion sort). *)

From S2P Require Import Prelude.

(** ** [str.split(sep)] *)

(** [s.split(sep)] with a one-character separator: the pieces between
    consecutive occurrences of [sep], empty pieces included; [''.split(sep)]
    is [['']]. *)
Fixpoint py_split (sep : ascii) (s : string) : list string :=
  match s with
  | EmptyString => [EmptyString]
  | String c s' =>
      let parts := py_split sep s' in
      if decide (c = sep) then EmptyString :: parts
      else match parts with
           | p :: ps => String c p :: ps
           | [] => [String c EmptyString]
           end
  end.

(** [sep.join(fs)], the inverse of [py_split]. *)
Fixpoint py_join (sep : ascii) (fs : list string) : string :=
  match fs with
  | [] => EmptyString
  | [f] => f
  | f :: fs' => String.append f (String sep (py_join sep fs'))
  end.

(** Whether the character [c] occurs in [s]. *)
Fixpoint str_mem (c : ascii) (s : string) : bool :=
  match s with
  | EmptyString => false
  | String d s' => bool_decide (d = c) || str_mem c s'
  end.

(** Number of occurrences of [c] in [s]. *)
Fixpoint str_count (c : ascii) (s : string) : nat :=
  match s with
  | EmptyString => 0
  | String d s' => (if decide (d = c) then 1 else 0) + str_count c s'
  end.

Lemma py_split_cons_ne sep c s :
  c <> sep ->
  exists p ps, py_split sep s = p :: ps /\ py_split sep (String c s) = String c p :: ps.
Proof.
  intros Hc. cbn. destruct (py_split sep s) as [|p ps] eqn:E.
  - destruct s; cbn in E; [done|]. destruct (decide _); [done|].
    destruct (py_split sep s); done.
  - exists p, ps. by rewrite decide_False.
Qed.

Lemma py_split_not_nil sep s : py_split sep s <> [].
Proof.
  destruct s as [|c s]; cbn; [done|].
  destruct (decide _); [done|]. by destruct (py_split sep s).
Qed.

#[export] Hint Resolve py_split_not_nil : roster.

Lemma py_join_cons sep f fs :
  fs <> [] -> py_join sep (f :: fs) = String.append f (String sep (py_join sep fs)).
Proof. by destruct fs. Qed.

(** Joining the pieces gives the string back. *)
Lemma py_join_split sep s : py_join sep (py_split sep s) = s.
Proof.
  induction s as [|c s IH]; [done|].
  destruct (decide (c = sep)) as [->|Hc].
  - cbn. rewrite decide_True by done. rewrite py_join_cons by auto with roster.
    cbn. by rewrite IH.
  - destruct (py_split_cons_ne sep c s Hc) as (p & ps & Hs & ->).
    rewrite Hs in IH. destruct ps; cbn in *; by rewrite IH.
Qed.

(** Splitting a joined list of separator-free pieces gives the pieces back. *)
Lemma py_split_join sep fs :
  fs <> [] -> Forall (fun f => str_mem sep f = false) fs ->
  py_split sep (py_join sep fs) = fs.
Proof.
  induction fs as [|f fs IH]; intros Hne Hf; [done|].
  inversion Hf as [|? ? Hf0 Hfs]; subst.
  assert (Happ : forall rest, py_split sep (String.append f rest) =
    match py_split sep rest with
    | p :: ps => String.append f p :: ps | [] => [] end).
  { clear -Hf0. induction f as [|c f IHf]; intros rest; cbn in *.
    - by destruct (py_split sep rest).
    - apply orb_false_iff in Hf0 as [Hc Hf0].
      rewrite decide_False by (intros ->; by rewrite bool_decide_eq_false in Hc).
      rewrite IHf by done. destruct (py_split sep rest) eqn:E; [|done].
      by destruct (py_split_not_nil sep rest). }
  destruct fs as [|f' fs].
  - cbn. specialize (Happ EmptyString). cbn in Happ.
    by rewrite str_app_nil_r in Happ.
  - rewrite py_join_cons by done. rewrite Happ. cbn [py_split].
    rewrite decide_True by done. rewrite IH by done. cbn.
    by rewrite str_app_nil_r.
Qed.

(** ** [str.rstrip()] *)

(** [c.isspace()] for a one-character string whose code point is below
    256: tab to carriage return (9 to 13), the separators 28 to 31, space,
    NEL (133) and NBSP (160). *)
Definition py_isspace (c : ascii) : bool :=
  let n := nat_of_ascii c in
  ((9 <=? n) && (n <=? 13)) || ((28 <=? n) && (n <=? 32)) || (n =? 133) || (n =? 160).

(** [s.rstrip()]: [s] without its trailing whitespace. *)
Fixpoint py_rstrip (s : string) : string :=
  match s with
  | EmptyString => EmptyString
  | String c s' =>
      match py_rstrip s' with
      | EmptyString => if py_isspace c then EmptyString else String c EmptyString
      | r => String c r
      end
  end.

(** Every character of [s] satisfies [p]. *)
Fixpoint str_forall (p : ascii -> bool) (s : string) : bool :=
  match s with
  | EmptyString => true
  | String c s' => p c && str_forall p s'
  end.

(** The last character of [s]. *)
Fixpoint str_last (s : string) : option ascii :=
  match s with
  | EmptyString => None
  | String c EmptyString => Some c
  | String _ s' => str_last s'
  end.

(** [l] with [f] applied to its last element. *)
Fixpoint map_last {A} (f : A -> A) (l : list A) : list A :=
  match l with
  | [] => []
  | [x] => [f x]
  | x :: l' => x :: map_last f l'
  end.

Lemma py_rstrip_nil_iff s : py_rstrip s = EmptyString <-> str_forall py_isspace s = true.
Proof.
  induction s as [|c s IH]; cbn; [done|].
  destruct (py_rstrip s) eqn:E.
  - assert (str_forall py_isspace s = true) as -> by (by apply IH).
    by destruct (py_isspace c).
  - split; [done|]. intros [_ Hs]%andb_prop. by apply IH in Hs.
Qed.

Lemma py_split_single sep s : py_split sep s = [s] <-> str_mem sep s = false.
Proof.
  induction s as [|c s IH]; cbn; [done|].
  destruct (decide (c = sep)) as [->|Hc].
  - rewrite bool_decide_true by done. split; [by intros [=]|done].
  - rewrite bool_decide_false by done. cbn. rewrite <- IH.
    destruct (py_split sep s) as [|p ps] eqn:E;
      [by destruct (py_split_not_nil sep s)|].
    split; intros H; simplify_eq; done.
Qed.

Lemma length_map_last {A} (f : A -> A) l : length (map_last f l) = length l.
Proof. induction l as [|x [|y l] IH]; cbn in *; auto. Qed.

(** [rstrip] before [split] only strips the last field, when the separator
    is not whitespace: the other fields are those of the raw line. *)
Lemma py_split_rstrip sep s :
  py_isspace sep = false ->
  py_split sep (py_rstrip s) = map_last py_rstrip (py_split sep s).
Proof.
  intros Hsep. induction s as [|c s IH]; [done|].
  destruct (decide (c = sep)) as [->|Hc].
  - assert (py_rstrip (String sep s) = String sep (py_rstrip s)) as ->.
    { cbn. destruct (py_rstrip s); [by rewrite Hsep|done]. }
    cbn [py_split]. rewrite !decide_True by done. rewrite IH.
    destruct (py_split sep s) eqn:Es; [by destruct (py_split_not_nil sep s)|].
    by cbn.
  - destruct (py_split_cons_ne sep c s Hc) as (p & ps & Hs & ->).
    assert (Hp : ps = [] -> p = s).
    { intros ->. pose proof (py_join_split sep s) as J. by rewrite Hs in J. }
    rewrite Hs in IH. cbn [py_rstrip]. destruct (py_rstrip s) eqn:E.
    + (* the rest of the line is whitespace: one field is left *)
      assert (ps = []) as -> by (apply (f_equal length) in IH;
        rewrite length_map_last in IH; destruct ps; cbn in IH; [done|lia]).
      rewrite Hp by done. cbn. rewrite E.
      destruct (py_isspace c); cbn; [done|]. by rewrite decide_False.
    + rewrite <- E in IH |- *. cbn [py_split]. rewrite decide_False, IH by done.
      destruct ps as [|p' ps]; cbn; [|done].
      rewrite Hp by done. by rewrite E.
Qed.

(** ** Iterating over a text file: [for line in file] *)

Definition newline : ascii := "010"%char.

(** The lines a text-mode file object yields, each with its terminating
    newline; the last line has none when the text does not end in one.
    The argument is the decoded text, after universal-newline translation. *)
Fixpoint py_lines (s : string) : list string :=
  match s with
  | EmptyString => []
  | String c s' =>
      if decide (c = newline) then String c EmptyString :: py_lines s'
      else match py_lines s' with
           | [] => [String c EmptyString]
           | l :: ls => String c l :: ls
           end
  end.

(** No line is empty, and a newline only ever ends a line. *)
Lemma py_lines_shape s l :
  l ∈ py_lines s ->
  l <> EmptyString /\ str_count newline l <= 1 /\
  (str_mem newline l = true -> str_last l = Some newline).
Proof.
  revert l. induction s as [|c s IH]; intros l Hl; cbn in Hl; [set_solver|].
  destruct (decide (c = newline)) as [->|Hc].
  - apply elem_of_cons in Hl as [->|Hl]; [done|]. by apply IH.
  - destruct (py_lines s) as [|l0 ls] eqn:E.
    + apply list_elem_of_singleton in Hl as ->. cbn.
      rewrite decide_False, bool_decide_false by done. split_and!; [done|lia|done].
    + apply elem_of_cons in Hl as [->|Hl]; [|apply IH; set_solver].
      destruct (IH l0) as (Hne & Hcnt & Hlast); [set_solver|].
      cbn. rewrite decide_False, bool_decide_false by done.
      split_and!; [done|lia|]. destruct l0; [done|]. auto.
Qed.

(** ** The full name: [f"{data[0]} {data[1]}"] *)

Definition py_full_name (first last : string) : string :=
  String.append first (String " " last).

(** ** [sorted(xs)] and [xs.sort()] on lists of strings *)

(** What Python's sort promises on strings: its result is ordered by code
    points ([String.le], lexicographic) and is a permutation of its input. *)
Class PySort (sort : list string -> list string) := {
  py_sort_sorted l : Sorted String.le (sort l);
  py_sort_perm l : sort l ≡ₚ l
}.

(** The sort of the model: stdpp's merge sort, stable like Python's. *)
Definition py_sorted : list string -> list string := merge_sort String.le.
Arguments py_sorted : simpl never.

#[export] Instance py_sorted_PySort : PySort py_sorted.
Proof.
  split; intros l; [apply Sorted_merge_sort; apply _ | apply merge_sort_Permutation].
Qed.

(** Sorting strings is determined by the interface: an ordered permutation
    of [l] is [py_sorted l]. *)
Lemma py_sorted_unique l l' :
  Sorted String.le l' -> l' ≡ₚ l -> py_sorted l = l'.
Proof.
  intros Hs Hp. apply (Sorted_unique String.le); [apply py_sort_sorted|done|].
  by rewrite py_sort_perm.
Qed.

(** A second implementation of the interface: insertion sort. *)
Fixpoint insert_sorted (x : string) (l : list string) : list string :=
  match l with
  | [] => [x]
  | y :: l' => if decide (String.le x y) then x :: l else y :: insert_sorted x l'
  end.

Definition insertion_sort (l : list string) : list string := foldr insert_sorted [] l.

Lemma insert_sorted_perm x l : insert_sorted x l ≡ₚ x :: l.
Proof.
  induction l as [|y l IH]; cbn; [done|]. case_decide; [done|].
  rewrite IH. constructor.
Qed.

Lemma insert_sorted_Sorted x l : Sorted String.le l -> Sorted String.le (insert_sorted x l).
Proof.
  induction 1 as [|y l Hl IH Hhd]; cbn; [by repeat constructor|].
  case_decide as Hxy; [by repeat constructor|].
  assert (String.le y x) by (destruct (total String.le x y); tauto).
  constructor; [done|]. destruct l as [|z l]; cbn; [by constructor|].
  inversion Hhd. case_decide; by constructor.
Qed.

#[export] Instance insertion_sort_PySort : PySort insertion_sort.
Proof.
  split; intros l; induction l as [|x l IH]; cbn; try constructor.
  - by apply insert_sorted_Sorted.
  - rewrite insert_sorted_perm. by constructor.
Qed.

(** Every implementation of the [PySort] interface computes the same
    function, [py_sorted]: modelling [sorted] by a merge sort is faithful to
    any sort that orders and permutes. *)
Lemma PySort_unique sort `{!PySort sort} l : sort l = py_sorted l.
Proof. symmetry. apply py_sorted_unique; [apply py_sort_sorted|apply py_sort_perm]. Qed.

#[export] Instance py_sorted_proper : Proper ((≡ₚ) ==> (=)) py_sorted.
Proof.
  intros l1 l2 Hl. apply py_sorted_unique; [apply py_sort_sorted|].
  by rewrite py_sort_perm.
Qed.

#[export] Hint Resolve py_sort_sorted py_sort_perm : roster.

(** ** Truthiness of a string: [if s:] *)

Definition py_truthy (s : string) : bool :=
  match s with EmptyString => false | _ => true end.

(** ** The record split of every query: [line.rstrip().split('|')] *)

Definition pipe : ascii := "|"%char.

Definition fields (line : string) : list string := py_split pipe (py_rstrip line).

Lemma pipe_not_space : py_isspace pipe = false.
Proof. reflexivity. Qed.

(** [all_houses] splits the raw line; the fields before the last one are
    those of the stripped line. *)
Lemma fields_lookup_raw line i :
  S i < length (fields line) -> fields line !! i = py_split pipe line !! i.
Proof.
  unfold fields. rewrite py_split_rstrip by apply pipe_not_space.
  generalize (py_split pipe line). clear line. intros l. revert i.
  induction l as [|x [|y l] IH]; intros [|i] Hi; cbn in *; try lia; try done.
  apply IH. cbn. lia.
Qed.

Lemma length_fields_raw line : length (fields line) = length (py_split pipe line).
Proof.
  unfold fields. rewrite py_split_rstrip by apply pipe_not_space.
  apply length_map_last.
Qed.

(** ** Lemmas for building lines *)

Lemma str_mem_app c s t : str_mem c (String.append s t) = str_mem c s || str_mem c t.
Proof. induction s as [|d s IH]; cbn; [done|]. rewrite IH. by rewrite orb_assoc. Qed.

Lemma str_mem_join c sep fs :
  c <> sep -> Forall (fun f => str_mem c f = false) fs -> str_mem c (py_join sep fs) = false.
Proof.
  intros Hc. induction 1 as [|f fs Hf Hfs IH]; [done|].
  destruct fs as [|f' fs]; [done|]. rewrite py_join_cons by done.
  rewrite str_mem_app, Hf. cbn [orb str_mem].
  rewrite bool_decide_false by congruence. exact IH.
Qed.

(** Trailing whitespace does not change [rstrip]. *)
Lemma py_rstrip_app_space s t :
  str_forall py_isspace t = true -> py_rstrip (String.append s t) = py_rstrip s.
Proof.
  intros Ht. induction s as [|c s IH]; cbn; [by apply py_rstrip_nil_iff|].
  by rewrite IH.
Qed.

(** A newline-free [s] followed by a newline is the first line. *)
Lemma py_lines_line s rest :
  str_mem newline s = false ->
  py_lines (String.append s (String newline rest)) =
  String.append s (String newline EmptyString) :: py_lines rest.
Proof.
  induction s as [|c s IH]; intros H; cbn [String.append py_lines]; [by rewrite decide_True|].
  cbn in H. apply orb_false_iff in H as [Hc H].
  rewrite decide_False by (intros ->; by rewrite bool_decide_true in Hc).
  by rewrite IH.
Qed.
