(* ===== verification/RosterSpec.v ===== *)
(** * The abstract roster: what the queries of [src/cohort_data.py] promise

    The spec's Record Parser (section 4.1) and its design note (section 9,
    "parse once, query many"): a line is parsed into an [entry] of five
    fields, a file into the list of its entries, and each query is a pure
    function of that list.  Every query of the program is proved to refine
    its function here (the refinement theorems are in the query's file).
    The loop-simulation lemmas [py_for_parsed] and [py_for_unparsed] carry
    those proofs: a loop whose body reads the fields of a parsed line is a
    fold over the entries, and it raises [IndexError] on a file that does
    not parse. *)

From S2P Require Import Prelude PyStr.
From stdpp Require Import list_monad.
Local Open Scope string_scope.
Local Open Scope list_scope.

Module Roster.

(** ** Entries and parsing *)

Record entry := mk_entry {
  first_name : string;
  last_name : string;
  house : string;
  advisor : string;
  cohort : string
}.

#[export] Instance entry_eq_dec : EqDecision entry.
Proof. solve_decision. Defined.

Definition full_name (e : entry) : string := py_full_name (first_name e) (last_name e).

(** A line parses when it has at least five fields; fields past the fifth
    are ignored, as the program ignores them. *)
Definition parse_entry (line : string) : option entry :=
  match fields line with
  | f0 :: f1 :: f2 :: f3 :: f4 :: _ => Some (mk_entry f0 f1 f2 f3 f4)
  | _ => None
  end.

Definition parse_roster (src : list string) : option (list entry) := mapM parse_entry src.

Lemma parse_entry_None line : parse_entry line = None <-> length (fields line) < 5.
Proof.
  unfold parse_entry.
  destruct (fields line) as [|? [|? [|? [|? [|? ?]]]]]; cbn; split; (done || lia).
Qed.

(** The fields a query reads from a parsed line. *)
Lemma parse_entry_Some line e :
  parse_entry line = Some e ->
  (fields line).[0] = Ok (first_name e) /\ (fields line).[1] = Ok (last_name e) /\
  (fields line).[2] = Ok (house e) /\ (fields line).[3] = Ok (advisor e) /\
  (fields line).[4] = Ok (cohort e) /\ 4 < length (fields line).
Proof.
  unfold parse_entry.
  destruct (fields line) as [|? [|? [|? [|? [|? ?]]]]]; intros; simplify_eq; cbn.
  split_and!; (done || lia).
Qed.

(** ** Writing a roster file *)

(** The line of an entry in the input format (spec, section 6):
    [first|last|house|advisor|cohort] and a newline. *)
Definition render_entry (e : entry) : string :=
  String.append (py_join pipe [first_name e; last_name e; house e; advisor e; cohort e])
    (String newline EmptyString).

Definition render_roster (es : list entry) : string :=
  foldr String.append EmptyString (render_entry <$> es).

(** A field can be written when it holds no delimiter and no newline; the
    cohort, last on its line, must also not end in whitespace. *)
Definition field_ok (f : string) : Prop := str_mem pipe f = false /\ str_mem newline f = false.

Definition entry_ok (e : entry) : Prop :=
  Forall field_ok [first_name e; last_name e; house e; advisor e; cohort e] /\
  py_rstrip (cohort e) = cohort e.

Lemma parse_render_entry e : entry_ok e -> parse_entry (render_entry e) = Some e.
Proof.
  intros [Hf Hc]. unfold parse_entry, fields, render_entry.
  rewrite py_rstrip_app_space by done.
  rewrite py_split_rstrip by apply pipe_not_space.
  rewrite py_split_join; [|done|].
  - cbn [PyStr.map_last]. rewrite Hc. by destruct e.
  - eapply Forall_impl; [exact Hf|]. by intros f [? _].
Qed.

(** A sample roster in the format of the program's data file, used by the
    examples and the witnesses of the theorems. *)
Definition sample_entries : list entry := [
  mk_entry "Harry" "Potter" "Gryffindor" "McGonagall" "Fall 2015";
  mk_entry "Ron" "Weasley" "Gryffindor" "McGonagall" "Fall 2015";
  mk_entry "Ginny" "Weasley" "Gryffindor" "McGonagall" "Winter 2016";
  mk_entry "Cho" "Chang" "Ravenclaw" "Flitwick" "Fall 2015";
  mk_entry "Nearly Headless" "Nick" "Gryffindor" "" "G";
  mk_entry "Moaning" "Myrtle" "" "" "G";
  mk_entry "Severus" "Snape" "" "" "I";
  mk_entry "Neville" "Longbottom" "Dumbledore's Army" "McGonagall" "Spring 2016";
  mk_entry "Lee" "Jordan" "" "" ""
].

Definition sample_text : string :=
"Harry|Potter|Gryffindor|McGonagall|Fall 2015
Ron|Weasley|Gryffindor|McGonagall|Fall 2015
Ginny|Weasley|Gryffindor|McGonagall|Winter 2016
Cho|Chang|Ravenclaw|Flitwick|Fall 2015
Nearly Headless|Nick|Gryffindor||G
Moaning|Myrtle|||G
Severus|Snape|||I
Neville|Longbottom|Dumbledore's Army|McGonagall|Spring 2016
Lee|Jordan|||
".

(** The lines a program run reads from the sample file. *)
Definition sample_file : list string := py_lines sample_text.

(** ** Loop simulation *)

Section simulation.
Context {B : Type} (body : B -> string -> res B).

(** A loop whose body, on a parsed line whose entry satisfies [P], is a
    pure step on the entry, is a fold over the entries of a file whose
    entries all satisfy [P] ... *)
Lemma py_for_parsed_if (P : entry -> Prop) (step : B -> entry -> B) src es acc :
  parse_roster src = Some es -> Forall P es ->
  (forall acc line e, P e -> parse_entry line = Some e -> body acc line = Ok (step acc e)) ->
  py_for body src acc = Ok (foldl step acc es).
Proof.
  intros Hp HP Hbody. apply mapM_Some_1 in Hp. revert acc.
  induction Hp as [|line e src es He _ IH]; intros acc; [done|].
  apply Forall_cons in HP as [HPe HP].
  cbn. rewrite (Hbody _ _ _ HPe He). cbn. by apply IH.
Qed.

Lemma py_for_parsed (step : B -> entry -> B) src es acc :
  parse_roster src = Some es ->
  (forall acc line e, parse_entry line = Some e -> body acc line = Ok (step acc e)) ->
  py_for body src acc = Ok (foldl step acc es).
Proof.
  intros Hp Hbody. apply (py_for_parsed_if (fun _ => True)); [done| |naive_solver].
  by apply Forall_true.
Qed.

(** ... and a body that raises on a line that does not parse makes the
    loop raise on a file that does not parse. *)
Lemma py_for_unparsed src acc :
  parse_roster src = None ->
  (forall acc line, parse_entry line = None -> body acc line = Err IndexError) ->
  (forall acc line e, parse_entry line = Some e -> exists acc', body acc line = Ok acc') ->
  py_for body src acc = Err IndexError.
Proof.
  intros Hp Hbad Hgood. apply mapM_None_1 in Hp. revert acc.
  induction src as [|line src IH]; intros acc; [by inversion Hp|].
  cbn. destruct (parse_entry line) as [e|] eqn:He.
  - destruct (Hgood acc line e He) as [acc' ->]. cbn. apply IH.
    inversion Hp; simplify_eq; done.
  - by rewrite Hbad.
Qed.
End simulation.

(** Permuting the lines of a file permutes its entries, or it fails to
    parse both ways. *)
Lemma parse_roster_perm f1 f2 :
  f1 ≡ₚ f2 ->
  match parse_roster f1, parse_roster f2 with
  | Some es1, Some es2 => es1 ≡ₚ es2
  | None, None => True
  | _, _ => False
  end.
Proof.
  unfold parse_roster.
  induction 1 as [|line f1 f2 _ IH|l1 l2 f|f1 f2 f3 _ IH1 _ IH2]; cbn [mapM].
  - cbn. constructor.
  - destruct (parse_entry line); cbn; [|done].
    destruct (mapM _ f1), (mapM _ f2); cbn; try done. by constructor.
  - destruct (parse_entry l1), (parse_entry l2), (mapM _ f); cbn; try done.
    constructor.
  - destruct (mapM _ f1), (mapM _ f2), (mapM _ f3); try done. by etrans.
Qed.

(** A body that reads field [i] of a line that does not parse raises, once
    [i] is at least the number of its fields. *)
Lemma parse_entry_None_index line :
  parse_entry line = None -> (fields line).[4] = Err IndexError.
Proof. intros H. apply py_index_Err. apply parse_entry_None in H. lia. Qed.

(** C21: round trip.  Writing entries whose fields hold no delimiter and
    no newline (and whose cohort does not end in whitespace) in the input
    format, then reading the file's lines and parsing them, gives the
    entries back. *)
Theorem parse_render_roster es :
  Forall entry_ok es -> parse_roster (py_lines (render_roster es)) = Some es.
Proof.
  induction 1 as [|e es He _ IH]; [done|].
  unfold render_roster. cbn [fmap list_fmap foldr]. unfold render_entry at 1.
  rewrite <- str_app_assoc. cbn [String.append].
  rewrite py_lines_line.
  - fold (render_entry e). unfold parse_roster. cbn [mapM].
    rewrite (parse_render_entry e He).
    unfold parse_roster, render_roster in IH. rewrite IH. done.
  - apply str_mem_join; [done|]. destruct He as [Hf _].
    eapply Forall_impl; [exact Hf|]. by intros f [_ ?].
Qed.

Lemma parse_render_roster_witness :
  Forall entry_ok sample_entries /\
  parse_roster (py_lines (render_roster sample_entries)) = Some sample_entries.
Proof.
  assert (H : Forall entry_ok sample_entries)
    by (repeat constructor; vm_compute; reflexivity).
  split; [exact H|exact (parse_render_roster _ H)].
Defined.

(** Rewrite the field reads of a query's loop body on a parsed line. *)
Ltac read_fields H :=
  let H0 := fresh in let H1 := fresh in let H2 := fresh in
  let H3 := fresh in let H4 := fresh in
  destruct (parse_entry_Some _ _ H) as (H0 & H1 & H2 & H3 & H4 & _);
  rewrite ?H0, ?H1, ?H2, ?H3, ?H4; cbn [mbind res_bind].

(** A loop body that reads field 4 raises on a line that does not parse. *)
Ltac unparsed_raises H :=
  apply parse_entry_None in H;
  let E := fresh in
  destruct (fields _) as [|?[|?[|?[|?[|? ?]]]]] eqn:E; cbn in H |- *; (done || lia).

(** ** The queries, on parsed entries *)

(** [all_data]: one row per entry, in file order. *)
Definition row : Type := string * string * string * string.
Definition to_row (e : entry) : row := (full_name e, house e, advisor e, cohort e).
Definition rows (es : list entry) : list row := map to_row es.

(** [get_housemates_for]: the people, other than [name], sharing house and
    cohort with the first entry named [name]; none when nobody is. *)
Definition housemates (name : string) (es : list entry) : gset string :=
  match list_find (fun e => full_name e = name) es with
  | None => ∅
  | Some (_, t) =>
      list_to_set (full_name <$> filter (fun e =>
        house e = house t /\ cohort e = cohort t /\ full_name e <> name) es)
  end.

(** [students_by_cohort]: an entry is listed when its cohort field is
    longer than one character and is the cohort asked for, or the cohort
    asked for is ["All"]; the names are sorted. *)
Definition in_cohort (c : string) (e : entry) : Prop :=
  1 < String.length (cohort e) /\ (cohort e = c \/ c = "All").

Definition cohort_roster (c : string) (es : list entry) : list string :=
  py_sorted (full_name <$> filter (in_cohort c) es).

(** [get_cohort_for]: the cohort of the first entry named [name]. *)
Definition cohort_of (name : string) (es : list entry) : option string :=
  (fun ie => cohort ie.2) <$> list_find (fun e => full_name e = name) es.

(** [all_houses]: the non-empty house fields. *)
Definition houses (es : list entry) : gset string :=
  list_to_set (filter (fun h => h <> "") (house <$> es)).

(** [all_names_by_house]: seven rosters in a fixed order; an entry goes to
    the first of them its house, then its cohort, selects, or to none. *)
Inductive roster_kind :=
| DumbledoresArmy | Gryffindor | Hufflepuff | Ravenclaw | Slytherin
| Ghosts | Instructors.

#[export] Instance roster_kind_eq_dec : EqDecision roster_kind.
Proof. solve_decision. Defined.

Definition roster_order : list roster_kind :=
  [DumbledoresArmy; Gryffindor; Hufflepuff; Ravenclaw; Slytherin; Ghosts; Instructors].

Definition classify (e : entry) : option roster_kind :=
  if decide (house e = "Dumbledore's Army") then Some DumbledoresArmy
  else if decide (house e = "Gryffindor") then Some Gryffindor
  else if decide (house e = "Hufflepuff") then Some Hufflepuff
  else if decide (house e = "Ravenclaw") then Some Ravenclaw
  else if decide (house e = "Slytherin") then Some Slytherin
  else if decide (cohort e = "G") then Some Ghosts
  else if decide (cohort e = "I") then Some Instructors
  else None.

Definition roster_of (k : roster_kind) (es : list entry) : list string :=
  py_sorted (full_name <$> filter (fun e => classify e = Some k) es).

Definition names_by_house (es : list entry) : list (list string) :=
  (fun k => roster_of k es) <$> roster_order.

(** [find_duped_last_names]: the last names borne by two entries or more. *)
Definition occurrences (x : string) (l : list string) : nat :=
  length (filter (fun y => y = x) l).

Definition duped (es : list entry) : gset string :=
  let lnames := last_name <$> es in
  list_to_set (filter (fun x => 2 <= occurrences x lnames) lnames).

(** ** Counting names *)

Lemma occurrences_snoc x y l :
  occurrences x (l ++ [y]) = occurrences x l + (if decide (y = x) then 1 else 0).
Proof. unfold occurrences. rewrite filter_app, length_app. cbn. by case_decide. Qed.

Lemma occurrences_app x l1 l2 :
  occurrences x (l1 ++ l2) = occurrences x l1 + occurrences x l2.
Proof. unfold occurrences. by rewrite filter_app, length_app. Qed.

#[export] Instance occurrences_proper x : Proper ((≡ₚ) ==> (=)) (occurrences x).
Proof. intros l1 l2 Hl. unfold occurrences. by rewrite Hl. Qed.

(** The occurrences of [x] among the images of the members of [l] that
    satisfy [P] are the members satisfying [P] whose image is [x]. *)
Lemma occurrences_fmap_filter {A} (f : A -> string) (P : A -> Prop)
    `{!forall a, Decision (P a)} x (l : list A) :
  occurrences x (f <$> filter P l) = length (filter (fun a => P a /\ f a = x) l).
Proof.
  unfold occurrences. induction l as [|a l IH]; [done|].
  rewrite !filter_cons. repeat case_decide; cbn; rewrite ?filter_cons;
    repeat case_decide; cbn; try rewrite IH; naive_solver.
Qed.

Lemma occurrences_pos x l : 0 < occurrences x l <-> x ∈ l.
Proof.
  unfold occurrences. split.
  - intros H. destruct (filter _ l) as [|y ys] eqn:E; cbn in H; [lia|].
    assert (y ∈ filter (fun y => y = x) l) as [-> ?]%list_elem_of_filter
      by (rewrite E; by left). done.
  - intros Hx. assert (x ∈ filter (fun y => y = x) l) as Hf
      by (by apply list_elem_of_filter).
    destruct (filter _ l); [by apply not_elem_of_nil in Hf|cbn; lia].
Qed.

(** Removing the other names does not change the count of [y]. *)
Lemma occurrences_filter_ne x y l :
  y <> x -> occurrences y (filter (fun z => z <> x) l) = occurrences y l.
Proof.
  intros Hne. unfold occurrences. rewrite list_filter_filter.
  f_equal. apply list_filter_iff. naive_solver.
Qed.

Lemma length_occurrences_split x l :
  length l = occurrences x l + length (filter (fun z => z <> x) l).
Proof.
  unfold occurrences. induction l as [|y l IH]; [done|].
  rewrite !filter_cons. repeat case_decide; cbn; congruence || lia.
Qed.

(** Distinct names occur, together, at most as often as the list is long. *)
Lemma occurrences_sum (xs l : list string) :
  NoDup xs -> sum_list ((fun x => occurrences x l) <$> xs) <= length l.
Proof.
  intros Hnd. revert l. induction Hnd as [|x xs Hx Hnd IH]; intros l; cbn; [lia|].
  rewrite (length_occurrences_split x l).
  assert (sum_list ((fun y => occurrences y l) <$> xs) =
          sum_list ((fun y => occurrences y (filter (fun z => z <> x) l)) <$> xs)) as ->.
  { f_equal. apply list_fmap_ext. intros i y Hy. symmetry. apply occurrences_filter_ne.
    intros ->. apply Hx. by eapply list_elem_of_lookup_2. }
  specialize (IH (filter (fun z => z <> x) l)). lia.
Qed.

End Roster.
