(* ===== verification/AllData.v ===== *)
(** * [all_data] (src/cohort_data.py, lines 149-181)

    The shared projection: one [(full_name, house, advisor, cohort)] tuple
    per line, in file order.  [get_housemates_for] calls it twice (see
    Housemates.v), through the characterisation [all_data_correct]. *)

From S2P Require Import Prelude PyStr RosterSpec.
Local Open Scope string_scope.
Local Open Scope list_scope.

Module AllData.
Import Roster.

(** The body of [for line in file:]: parse the line and append its tuple. *)
Definition all_data_body (all_data : list row) (line : string) : res (list row) :=
  let data := fields line in
  d0 ← data.[0]; d1 ← data.[1]; house ← data.[2]; advisor ← data.[3];
  cohort ← data.[4];
  let my_tuple := (py_full_name d0 d1, house, advisor, cohort) in
  Ok (all_data ++ [my_tuple]).

Definition all_data (file : list string) : res (list row) :=
  py_for all_data_body file [].

Lemma all_data_body_parsed acc line e :
  parse_entry line = Some e -> all_data_body acc line = Ok (acc ++ [to_row e]).
Proof. intros He. unfold all_data_body. by read_fields He. Qed.

Lemma all_data_body_unparsed acc line :
  parse_entry line = None -> all_data_body acc line = Err IndexError.
Proof. intros He. unfold all_data_body. unparsed_raises He. Qed.

Lemma all_data_spec file :
  all_data file = match parse_roster file with
                  | Some es => Ok (rows es)
                  | None => Err IndexError
                  end.
Proof.
  unfold all_data. destruct (parse_roster file) as [es|] eqn:Hp.
  - rewrite (py_for_parsed _ (fun acc e => acc ++ [to_row e]) _ es _ Hp)
      by apply all_data_body_parsed.
    by rewrite foldl_snoc_map.
  - apply py_for_unparsed; [done|apply all_data_body_unparsed|].
    intros acc line e He. eexists. by apply all_data_body_parsed.
Qed.

(** C18: [all_data] returns the rows [(full_name, house, advisor, cohort)]
    of the parsed file, one per line and in file order, and raises
    [IndexError] exactly when some line has fewer than five fields. *)
Theorem all_data_correct file :
  all_data file = match parse_roster file with
                  | Some es => Ok (rows es)
                  | None => Err IndexError
                  end.
Proof. apply all_data_spec. Qed.

End AllData.
