(* ===== verification/Housemates.v ===== *)
(** * [get_housemates_for] (src/cohort_data.py, lines 244-293)

    Two phases over [all_data]: find the first tuple whose full name is
    [name] (the loop with [break]), then scan [all_data] again and collect
    the names sharing the target's house and cohort, other than [name].
    The component calls [all_data] twice and is proved through
    [AllData.all_data_spec] only. *)

From S2P Require Import Prelude PyStr RosterSpec AllData.
Local Open Scope string_scope.
Local Open Scope list_scope.

Module Housemates.
Import Roster AllData.

(** The first loop: [for person in all_data(filename): ... if full_name ==
    name: target_person = person; break]. *)
Fixpoint find_target (people : list row) (name : string) : option row :=
  match people with
  | [] => None
  | person :: rest =>
      let '(full_name, house, advisor, cohort_name) := person in
      if decide (full_name = name) then Some person else find_target rest name
  end.

(** The body of the second loop. *)
Definition housemates_body (name target_house target_cohort : string)
    (housemates : gset string) (person : row) : gset string :=
  let '(full_name, house, _, cohort_name) := person in
  if decide ((house, cohort_name) = (target_house, target_cohort) /\ full_name <> name)
  then {[full_name]} ∪ housemates else housemates.

(** [if target_person:] holds for any tuple, so it tests that the first
    loop found one. *)
Definition get_housemates_for (file : list string) (name : string) : res (gset string) :=
  let housemates := ∅ in
  people ← all_data file;
  match find_target people name with
  | Some (target_name, target_house, _, target_cohort) =>
      people' ← all_data file;
      Ok (foldl (housemates_body name target_house target_cohort) housemates people')
  | None => Ok housemates
  end.

Lemma find_target_rows es name :
  find_target (rows es) name =
  (fun ie => to_row ie.2) <$> list_find (fun e => full_name e = name) es.
Proof.
  unfold rows. induction es as [|e es IH]; [done|]. cbn.
  destruct (decide (full_name e = name)); [done|].
  rewrite IH. by destruct (list_find _ es).
Qed.

Lemma housemates_fold name th tc es :
  foldl (housemates_body name th tc) ∅ (rows es) =
  list_to_set (full_name <$> filter (fun e =>
    house e = th /\ cohort e = tc /\ full_name e <> name) es).
Proof.
  unfold rows. rewrite foldl_map.
  rewrite (foldl_set_builder (fun e => house e = th /\ cohort e = tc /\ full_name e <> name)
    full_name); [set_solver|].
  intros s e. unfold housemates_body, to_row. cbn.
  repeat case_decide; naive_solver.
Qed.

Lemma housemates_refinement file name :
  get_housemates_for file name =
  match parse_roster file with
  | Some es => Ok (housemates name es)
  | None => Err IndexError
  end.
Proof.
  unfold get_housemates_for. rewrite all_data_spec.
  destruct (parse_roster file) as [es|] eqn:Hp; cbn [mbind res_bind]; [|done].
  rewrite find_target_rows. unfold housemates.
  destruct (list_find _ es) as [[i t]|]; cbn [fmap option_fmap option_map to_row];
    [|done].
  cbn [snd]. by rewrite housemates_fold.
Qed.

(** In a roster whose full names are distinct, the first entry named
    like [e] is [e]. *)
Lemma list_find_name es e :
  NoDup (full_name <$> es) -> e ∈ es ->
  exists i, list_find (fun e' => full_name e' = full_name e) es = Some (i, e).
Proof.
  intros Hnd He. destruct (list_find _ es) as [[i e']|] eqn:Hf.
  - apply list_find_Some in Hf as (Hi & Hname & _).
    apply list_elem_of_lookup in He as (j & Hj).
    assert (i = j) as ->; [|exists j; congruence].
    eapply NoDup_lookup; [exact Hnd| |]; rewrite list_lookup_fmap;
      [rewrite Hi|rewrite Hj]; cbn; [by rewrite Hname|done].
  - apply list_find_None in Hf. rewrite Forall_forall in Hf. by destruct (Hf e He).
Qed.

(** C2: the queried name is never in the result of [get_housemates_for]:
    exclusion is by the name string. *)
Theorem get_housemates_for_not_self file name s :
  get_housemates_for file name = Ok s -> name ∉ s.
Proof.
  rewrite housemates_refinement.
  destruct (parse_roster file) as [es|]; intros [= <-].
  unfold housemates. destruct (list_find _ es) as [[i t]|]; [|set_solver].
  rewrite elem_of_list_to_set, list_elem_of_fmap.
  intros (e & -> & [(_ & _ & ?) _]%list_elem_of_filter). done.
Qed.

(** C3: on a file that parses, a name that no line carries has no
    housemates, and asking for it is not an error. *)
Theorem get_housemates_for_unknown file es name :
  parse_roster file = Some es -> Forall (fun e => full_name e <> name) es ->
  get_housemates_for file name = Ok ∅.
Proof.
  intros Hp Hnone. rewrite housemates_refinement, Hp. unfold housemates.
  rewrite (proj2 (list_find_None _ _)); [done|].
  eapply Forall_impl; [exact Hnone|]. naive_solver.
Qed.

(** C1: refinement.  [get_housemates_for] computes [Roster.housemates] of
    the parsed file (the names other than [name] sharing house and cohort
    with the first line named [name], none when no line is), and raises
    [IndexError] when a line has fewer than five fields. *)
Theorem get_housemates_for_correct file name :
  get_housemates_for file name =
  match parse_roster file with
  | Some es => Ok (housemates name es)
  | None => Err IndexError
  end.
Proof. apply housemates_refinement. Qed.

(** C23: on a file that parses and in which no two lines share a full
    name, being housemates is symmetric: when [b] is among the housemates
    of [a], [a] is among the housemates of [b].  The hypothesis is needed:
    the target is the first line named [a], and exclusion is by name. *)
Theorem get_housemates_for_sym file es a b sa :
  parse_roster file = Some es -> NoDup (full_name <$> es) ->
  get_housemates_for file a = Ok sa -> b ∈ sa ->
  exists sb, get_housemates_for file b = Ok sb /\ a ∈ sb.
Proof.
  intros Hp Hnd. rewrite !housemates_refinement, Hp. intros [= <-] Hb.
  eexists; split; [done|]. unfold housemates in *.
  destruct (list_find _ es) as [[i t]|] eqn:Ht; [|set_solver].
  apply list_find_Some in Ht as (Hi & Hta & _).
  apply elem_of_list_to_set, list_elem_of_fmap in Hb as (e & -> & Hf).
  apply list_elem_of_filter in Hf as [(Hh & Hc & Hne) He].
  destruct (list_find_name es e Hnd He) as [j ->].
  apply elem_of_list_to_set, list_elem_of_fmap.
  exists t. split; [done|]. apply list_elem_of_filter.
  split; [|by eapply list_elem_of_lookup_2]. naive_solver.
Qed.
(** Witnesses. *)
Lemma get_housemates_for_not_self_witness :
  get_housemates_for sample_file "Harry Potter" = Ok {[ "Ron Weasley" ]} /\
  "Harry Potter" ∉ ({[ "Ron Weasley" ]} : gset string).
Proof.
  split; [vm_compute; reflexivity|].
  apply (get_housemates_for_not_self sample_file). vm_compute. reflexivity.
Defined.

Lemma get_housemates_for_unknown_witness :
  parse_roster sample_file = Some sample_entries /\
  Forall (fun e => full_name e <> "Balloonicorn") sample_entries /\
  get_housemates_for sample_file "Balloonicorn" = Ok ∅.
Proof.
  assert (Hp : parse_roster sample_file = Some sample_entries) by (vm_compute; reflexivity).
  assert (Hn : Forall (fun e => full_name e <> "Balloonicorn") sample_entries)
    by (repeat constructor; vm_compute; congruence).
  split_and!; [exact Hp|exact Hn|].
  exact (get_housemates_for_unknown sample_file sample_entries "Balloonicorn" Hp Hn).
Defined.

Lemma get_housemates_for_sym_witness :
  parse_roster sample_file = Some sample_entries /\
  NoDup (full_name <$> sample_entries) /\
  get_housemates_for sample_file "Harry Potter" = Ok {[ "Ron Weasley" ]} /\
  "Ron Weasley" ∈ ({[ "Ron Weasley" ]} : gset string) /\
  exists sb, get_housemates_for sample_file "Ron Weasley" = Ok sb /\ "Harry Potter" ∈ sb.
Proof.
  assert (Hp : parse_roster sample_file = Some sample_entries) by (vm_compute; reflexivity).
  assert (Hnd : NoDup (full_name <$> sample_entries))
    by (apply (bool_decide_unpack (NoDup _)); vm_compute; reflexivity).
  assert (Ha : get_housemates_for sample_file "Harry Potter" = Ok {[ "Ron Weasley" ]})
    by (vm_compute; reflexivity).
  assert (Hb : "Ron Weasley" ∈ ({[ "Ron Weasley" ]} : gset string)) by set_solver.
  split_and!; [exact Hp|exact Hnd|exact Ha|exact Hb|].
  exact (get_housemates_for_sym _ _ _ _ _ Hp Hnd Ha Hb).
Defined.

End Housemates.
