(* ===== verification/Cohorts.v ===== *)
(** * [students_by_cohort] and [get_cohort_for] (src/cohort_data.py,
      lines 33-77 and 184-212)

    [students_by_cohort] collects the full names of the lines whose cohort
    field is longer than one character and matches, then sorts them;
    [get_cohort_for] returns the cohort of the first line with the given
    full name, reading no further. *)

From S2P Require Import Prelude PyStr RosterSpec.
Local Open Scope string_scope.
Local Open Scope list_scope.

Module StudentsByCohort.
Import Roster.

(** The body of [for line in file:].  The two tests are separate [if]s, not
    an [if]/[elif]: a line whose cohort field is ["All"] is appended twice
    when the cohort asked for is ["All"]. *)
Definition students_by_cohort_body (cohort : string) (students : list string)
    (line : string) : res (list string) :=
  let data := fields line in
  d0 ← data.[0]; d1 ← data.[1]; group ← data.[4];
  let full_name := py_full_name d0 d1 in
  if decide (1 < String.length group) then
    let students := if decide (cohort = group) then students ++ [full_name] else students in
    Ok (if decide (cohort = "All") then students ++ [full_name] else students)
  else Ok students.

(** [students_by_cohort(filename, cohort='All')]. *)
Definition students_by_cohort (file : list string) (cohort : string) : res (list string) :=
  students ← py_for (students_by_cohort_body cohort) file [];
  Ok (py_sorted students).

(** The loop body on the entry of a parsed line. *)
Definition students_step (c : string) (students : list string) (e : entry) : list string :=
  if decide (1 < String.length (cohort e)) then
    let students := if decide (c = cohort e) then students ++ [full_name e] else students in
    if decide (c = "All") then students ++ [full_name e] else students
  else students.

(** The lines listed by the first test, and by the second. *)
Definition listed_by_group (c : string) (e : entry) : Prop :=
  1 < String.length (cohort e) /\ c = cohort e.
Definition listed_by_all (c : string) (e : entry) : Prop :=
  1 < String.length (cohort e) /\ c = "All".

Lemma students_body_parsed c acc line e :
  parse_entry line = Some e ->
  students_by_cohort_body c acc line = Ok (students_step c acc e).
Proof.
  intros He. unfold students_by_cohort_body, students_step. read_fields He.
  by destruct (decide _).
Qed.

Lemma students_body_unparsed c acc line :
  parse_entry line = None -> students_by_cohort_body c acc line = Err IndexError.
Proof. intros He. unfold students_by_cohort_body. unparsed_raises He. Qed.

Lemma students_loop_perm c es acc :
  foldl (students_step c) acc es ≡ₚ
  acc ++ (full_name <$> filter (listed_by_group c) es) ++
         (full_name <$> filter (listed_by_all c) es).
Proof.
  revert acc. induction es as [|e es IH]; intros acc; cbn [foldl].
  { by rewrite !app_nil_r. }
  rewrite IH, !filter_cons. unfold students_step, listed_by_group, listed_by_all.
  repeat case_decide; try tauto; cbn; solve_Permutation.
Qed.

Lemma students_by_cohort_multiset file es c :
  parse_roster file = Some es ->
  students_by_cohort file c =
  Ok (py_sorted ((full_name <$> filter (listed_by_group c) es) ++
                 (full_name <$> filter (listed_by_all c) es))).
Proof.
  intros Hp. unfold students_by_cohort.
  rewrite (py_for_parsed _ (students_step c) _ es _ Hp)
    by (intros; by apply students_body_parsed).
  cbn [mbind res_bind]. f_equal. apply py_sorted_proper.
  by rewrite students_loop_perm.
Qed.

Lemma students_by_cohort_raises file c :
  parse_roster file = None -> students_by_cohort file c = Err IndexError.
Proof.
  intros Hp. unfold students_by_cohort.
  rewrite (py_for_unparsed _ _ _ Hp); [done|apply students_body_unparsed|].
  intros acc line e He. eexists. by apply students_body_parsed.
Qed.

(** C4: refinement.  Unless the cohort asked for and some line's cohort
    field are both ["All"], [students_by_cohort] is [Roster.cohort_roster]
    of the parsed file: the sorted full names of the lines whose cohort
    field is longer than one character and equals the cohort asked for (any
    such cohort under ["All"]). *)
Theorem students_by_cohort_correct file es c :
  parse_roster file = Some es ->
  c <> "All" \/ Forall (fun e => cohort e <> "All") es ->
  students_by_cohort file c = Ok (cohort_roster c es).
Proof.
  intros Hp Hc. rewrite (students_by_cohort_multiset _ _ _ Hp). unfold cohort_roster.
  rewrite <- fmap_app. do 3 f_equal.
  destruct (decide (c = "All")) as [->|Hne].
  - destruct Hc as [|Hc]; [done|].
    rewrite (filter_Forall_not (listed_by_group _)), app_nil_l.
    + apply filter_Forall_iff, Forall_true. unfold listed_by_all, in_cohort. naive_solver.
    + eapply Forall_impl; [exact Hc|]. unfold listed_by_group. naive_solver.
  - rewrite (filter_Forall_not (listed_by_all _)), app_nil_r.
    + apply filter_Forall_iff, Forall_true. unfold listed_by_group, in_cohort. naive_solver.
    + apply Forall_true. unfold listed_by_all. naive_solver.
Qed.

(** C5: the exact behaviour of [students_by_cohort] on a file that parses:
    the sorted full names listed by the test [cohort == group] and by the
    test [cohort == 'All'] (both guarded by [len(group) > 1]), a line
    listed by both counting twice. *)
Theorem students_by_cohort_exact file es c :
  parse_roster file = Some es ->
  students_by_cohort file c =
  Ok (py_sorted ((full_name <$> filter (listed_by_group c) es) ++
                 (full_name <$> filter (listed_by_all c) es))).
Proof. apply students_by_cohort_multiset. Qed.

(** C6: under the default cohort ["All"], [students_by_cohort] lists a
    name once for each line bearing it whose cohort field is longer than one
    character, and once more for each line bearing it whose cohort field is
    ["All"]: the two tests are separate [if]s, so a line of cohort ["All"]
    is listed twice, and a line of a one-letter cohort (a ghost, an
    instructor) is never listed. *)
Theorem students_by_cohort_All_count file es n l :
  parse_roster file = Some es -> students_by_cohort file "All" = Ok l ->
  occurrences n l =
    length (filter (fun e => 1 < String.length (cohort e) /\ full_name e = n) es) +
    length (filter (fun e => cohort e = "All" /\ full_name e = n) es).
Proof.
  intros Hp. rewrite (students_by_cohort_multiset _ _ _ Hp). intros [= <-].
  rewrite py_sort_perm, occurrences_app, !occurrences_fmap_filter.
  rewrite Nat.add_comm. f_equal; f_equal; apply list_filter_iff; intros e;
    unfold listed_by_group, listed_by_all;
    destruct (decide (cohort e = "All")) as [->|]; cbn; naive_solver lia.
Qed.
(** C19: [students_by_cohort] raises [IndexError] on a file with a line of
    fewer than five fields, whatever the cohort asked for. *)
Theorem students_by_cohort_unparsed file c :
  parse_roster file = None -> students_by_cohort file c = Err IndexError.
Proof. apply students_by_cohort_raises. Qed.

(** C22: the result of [students_by_cohort] does not depend on the order
    of the lines of the file. *)
Theorem students_by_cohort_perm f1 f2 c :
  f1 ≡ₚ f2 -> students_by_cohort f1 c = students_by_cohort f2 c.
Proof.
  intros Hf. pose proof (parse_roster_perm f1 f2 Hf) as Hp.
  destruct (parse_roster f1) as [es1|] eqn:E1, (parse_roster f2) as [es2|] eqn:E2;
    try done.
  - rewrite (students_by_cohort_multiset _ _ _ E1), (students_by_cohort_multiset _ _ _ E2).
    f_equal. apply py_sorted_proper. by rewrite Hp.
  - by rewrite !students_by_cohort_raises.
Qed.

(** The cohort labels of a roster that [students_by_cohort] can list:
    those longer than one character, each once. *)
Definition cohort_labels (es : list entry) : list string :=
  remove_dups (filter (fun c => 1 < String.length c) (cohort <$> es)).

(** The names listed under distinct labels other than ["All"] are, together,
    those of the lines whose cohort is one of the labels. *)
Lemma concat_cohorts_perm (L : list string) es :
  NoDup L -> Forall (fun c => c <> "All") L ->
  concat ((fun c => full_name <$> filter (in_cohort c) es) <$> L) ≡ₚ
  full_name <$> filter (fun e => 1 < String.length (cohort e) /\ cohort e ∈ L) es.
Proof.
  induction 1 as [|c L Hc HL IH]; intros Hall.
  { cbn. rewrite filter_Forall_not; [done|]. apply Forall_true. set_solver. }
  apply Forall_cons in Hall as [HcA Hall]. cbn [fmap list_fmap concat].
  rewrite IH by done. rewrite <- fmap_app. apply fmap_Permutation.
  rewrite filter_app_disjoint.
  - apply reflexive_eq, list_filter_iff. intros e. unfold in_cohort.
    rewrite elem_of_cons. naive_solver.
  - unfold in_cohort. intros e [_ [Hce|HcAll]] [_ HeL]; [|done].
    apply Hc. by rewrite <- Hce.
Qed.

(** C26: the spec's union property (section 8): when no line's cohort
    field is ["All"], [students_by_cohort(src)] is the sorted concatenation
    of the rosters of every cohort label it can list. *)
Theorem students_by_cohort_All_union file es :
  parse_roster file = Some es -> Forall (fun e => cohort e <> "All") es ->
  students_by_cohort file "All" =
  Ok (py_sorted (concat ((fun c => cohort_roster c es) <$> cohort_labels es))).
Proof.
  intros Hp Hno. rewrite (students_by_cohort_multiset _ _ _ Hp). f_equal.
  apply py_sorted_proper.
  rewrite (concat_fmap_Permutation _ (fun c => full_name <$> filter (in_cohort c) es))
    by (intros c; unfold cohort_roster; apply py_sort_perm).
  rewrite concat_cohorts_perm; [|apply NoDup_remove_dups|].
  - rewrite (filter_Forall_not (listed_by_group _)), app_nil_l.
    + apply reflexive_eq. f_equal. apply filter_Forall_iff, Forall_forall.
      intros e He. unfold listed_by_all, cohort_labels.
      rewrite elem_of_remove_dups, list_elem_of_filter, list_elem_of_fmap.
      naive_solver.
    + eapply Forall_impl; [exact Hno|]. unfold listed_by_group. naive_solver.
  - apply Forall_forall. intros c. unfold cohort_labels.
    rewrite elem_of_remove_dups, list_elem_of_filter, list_elem_of_fmap.
    intros (_ & e & -> & He). by apply (Forall_forall _ _) with (x := e) in Hno.
Qed.

(** Witnesses. *)
Lemma students_by_cohort_All_union_witness :
  parse_roster sample_file = Some sample_entries /\
  Forall (fun e => cohort e <> "All") sample_entries /\
  students_by_cohort sample_file "All" =
  Ok (py_sorted (concat ((fun c => cohort_roster c sample_entries) <$>
                         cohort_labels sample_entries))).
Proof.
  assert (Hp : parse_roster sample_file = Some sample_entries) by (vm_compute; reflexivity).
  assert (Hn : Forall (fun e => cohort e <> "All") sample_entries)
    by (repeat constructor; vm_compute; congruence).
  split_and!; [exact Hp|exact Hn|exact (students_by_cohort_All_union _ _ Hp Hn)].
Defined.

Lemma students_by_cohort_correct_witness :
  parse_roster sample_file = Some sample_entries /\
  ("Fall 2015" <> "All" \/ Forall (fun e => cohort e <> "All") sample_entries) /\
  students_by_cohort sample_file "Fall 2015" =
    Ok (cohort_roster "Fall 2015" sample_entries).
Proof.
  assert (Hp : parse_roster sample_file = Some sample_entries) by (vm_compute; reflexivity).
  assert (Hc : "Fall 2015" <> "All" \/ Forall (fun e => cohort e <> "All") sample_entries)
    by (left; discriminate).
  split_and!; [exact Hp|exact Hc|exact (students_by_cohort_correct _ _ _ Hp Hc)].
Defined.

Lemma students_by_cohort_All_count_witness :
  parse_roster ["Albus|Dumbledore|||All"; "Moaning|Myrtle|||G"] =
    Some [mk_entry "Albus" "Dumbledore" "" "" "All"; mk_entry "Moaning" "Myrtle" "" "" "G"] /\
  students_by_cohort ["Albus|Dumbledore|||All"; "Moaning|Myrtle|||G"] "All" =
    Ok ["Albus Dumbledore"; "Albus Dumbledore"] /\
  occurrences "Albus Dumbledore" ["Albus Dumbledore"; "Albus Dumbledore"] = 1 + 1.
Proof.
  assert (Hp : parse_roster ["Albus|Dumbledore|||All"; "Moaning|Myrtle|||G"] =
    Some [mk_entry "Albus" "Dumbledore" "" "" "All"; mk_entry "Moaning" "Myrtle" "" "" "G"])
    by (vm_compute; reflexivity).
  assert (Hs : students_by_cohort ["Albus|Dumbledore|||All"; "Moaning|Myrtle|||G"] "All" =
    Ok ["Albus Dumbledore"; "Albus Dumbledore"]) by (vm_compute; reflexivity).
  split_and!; [exact Hp|exact Hs|].
  exact (students_by_cohort_All_count _ _ "Albus Dumbledore" _ Hp Hs).
Defined.

Lemma students_by_cohort_exact_witness :
  parse_roster sample_file = Some sample_entries /\
  students_by_cohort sample_file "All" =
  Ok (py_sorted ((full_name <$> filter (listed_by_group "All") sample_entries) ++
                 (full_name <$> filter (listed_by_all "All") sample_entries))).
Proof.
  assert (Hp : parse_roster sample_file = Some sample_entries) by (vm_compute; reflexivity).
  split; [exact Hp|exact (students_by_cohort_exact _ _ "All" Hp)].
Defined.

Lemma students_by_cohort_unparsed_witness :
  parse_roster ["Harry|Potter"] = None /\
  students_by_cohort ["Harry|Potter"] "All" = Err IndexError.
Proof.
  assert (Hp : parse_roster ["Harry|Potter"] = None) by (vm_compute; reflexivity).
  split; [exact Hp|exact (students_by_cohort_unparsed _ "All" Hp)].
Defined.

Lemma students_by_cohort_perm_witness :
  sample_file ≡ₚ reverse sample_file /\
  students_by_cohort sample_file "Fall 2015" =
    students_by_cohort (reverse sample_file) "Fall 2015".
Proof.
  assert (Hf : sample_file ≡ₚ reverse sample_file) by (symmetry; apply reverse_Permutation).
  split; [exact Hf|exact (students_by_cohort_perm _ _ "Fall 2015" Hf)].
Defined.

End StudentsByCohort.

Module CohortFor.
Import Roster.

(** [for line in file: ... if full_name == name: return cohort]; falling
    off the end returns [None]. *)
Fixpoint get_cohort_for (file : list string) (name : string) : res (option string) :=
  match file with
  | [] => Ok None
  | line :: file' =>
      let data := fields line in
      d0 ← data.[0]; d1 ← data.[1]; cohort ← data.[4];
      if decide (py_full_name d0 d1 = name) then Ok (Some cohort)
      else get_cohort_for file' name
  end.

(** The loop on a line that parses. *)
Lemma get_cohort_for_cons_parsed line file e name :
  parse_entry line = Some e ->
  get_cohort_for (line :: file) name =
  if decide (full_name e = name) then Ok (Some (cohort e)) else get_cohort_for file name.
Proof. intros He. cbn [get_cohort_for]. by read_fields He. Qed.

(** Lines that parse and carry other names are read past. *)
Lemma get_cohort_for_skip pre es_pre rest name :
  parse_roster pre = Some es_pre -> Forall (fun e => full_name e <> name) es_pre ->
  get_cohort_for (pre ++ rest) name = get_cohort_for rest name.
Proof.
  intros Hp%mapM_Some_1 Hn. induction Hp as [|line e pre es He _ IH]; [done|].
  apply Forall_cons in Hn as [Hne Hn]. cbn [app].
  rewrite (get_cohort_for_cons_parsed _ _ _ _ He), decide_False by done. auto.
Qed.

(** C11: refinement.  On a file that parses, [get_cohort_for] is
    [Roster.cohort_of]: the cohort of the first line carrying the name, or
    [None] (not an error) when no line does. *)
Theorem get_cohort_for_correct file es name :
  parse_roster file = Some es -> get_cohort_for file name = Ok (cohort_of name es).
Proof.
  intros Hp%mapM_Some_1. induction Hp as [|line e file es He _ IH]; [done|].
  rewrite (get_cohort_for_cons_parsed _ _ _ _ He). unfold cohort_of. cbn.
  destruct (decide (full_name e = name)); [done|].
  rewrite IH. unfold cohort_of. by destruct (list_find _ es).
Qed.

(** C10: first-match semantics.  [get_cohort_for] returns the cohort of
    the first line named [name] when the lines before it parse, whatever
    follows it, malformed lines and later namesakes included. *)
Theorem get_cohort_for_first pre line post es_pre e name :
  parse_roster pre = Some es_pre -> Forall (fun e' => full_name e' <> name) es_pre ->
  parse_entry line = Some e -> full_name e = name ->
  get_cohort_for (pre ++ line :: post) name = Ok (Some (cohort e)).
Proof.
  intros Hp Hn He Hname. rewrite (get_cohort_for_skip _ _ _ _ Hp Hn).
  rewrite (get_cohort_for_cons_parsed _ _ _ _ He). by rewrite decide_True.
Qed.

(** C12: [get_cohort_for] raises exactly when a line of fewer than five
    fields comes before the first line named [name] (or is that line). *)
Theorem get_cohort_for_raises file name :
  (exists err, get_cohort_for file name = Err err) <->
  exists pre line post es_pre, file = pre ++ line :: post /\
    parse_roster pre = Some es_pre /\ Forall (fun e => full_name e <> name) es_pre /\
    parse_entry line = None.
Proof.
  split.
  - intros [err Herr]. induction file as [|line file IH]; [done|].
    destruct (parse_entry line) as [e|] eqn:He.
    + rewrite (get_cohort_for_cons_parsed _ _ _ _ He) in Herr.
      destruct (decide (full_name e = name)); [done|].
      destruct (IH Herr) as (pre & l & post & es & -> & Hp & Hn & Hl).
      exists (line :: pre), l, post, (e :: es). cbn. unfold parse_roster in Hp.
      rewrite He, Hp. split_and!; [done|done|by constructor|done].
    + exists [], line, file, []. split_and!; done.
  - intros (pre & line & post & es & -> & Hp & Hn & He). exists IndexError.
    rewrite (get_cohort_for_skip _ _ _ _ Hp Hn). cbn [get_cohort_for].
    unparsed_raises He.
Qed.

(** Witnesses. *)
Lemma get_cohort_for_correct_witness :
  parse_roster sample_file = Some sample_entries /\
  get_cohort_for sample_file "Ginny Weasley" = Ok (cohort_of "Ginny Weasley" sample_entries).
Proof.
  assert (Hp : parse_roster sample_file = Some sample_entries) by (vm_compute; reflexivity).
  split; [exact Hp|exact (get_cohort_for_correct _ _ "Ginny Weasley" Hp)].
Defined.

Lemma get_cohort_for_first_witness :
  parse_roster ["Harry|Potter|Gryffindor|McGonagall|Fall 2015"] =
    Some [mk_entry "Harry" "Potter" "Gryffindor" "McGonagall" "Fall 2015"] /\
  Forall (fun e' => full_name e' <> "Cho Chang")
    [mk_entry "Harry" "Potter" "Gryffindor" "McGonagall" "Fall 2015"] /\
  parse_entry "Cho|Chang|Ravenclaw|Flitwick|Fall 2015" =
    Some (mk_entry "Cho" "Chang" "Ravenclaw" "Flitwick" "Fall 2015") /\
  full_name (mk_entry "Cho" "Chang" "Ravenclaw" "Flitwick" "Fall 2015") = "Cho Chang" /\
  get_cohort_for (["Harry|Potter|Gryffindor|McGonagall|Fall 2015"] ++
    "Cho|Chang|Ravenclaw|Flitwick|Fall 2015" :: ["malformed"]) "Cho Chang" =
    Ok (Some "Fall 2015").
Proof.
  assert (H1 : parse_roster ["Harry|Potter|Gryffindor|McGonagall|Fall 2015"] =
    Some [mk_entry "Harry" "Potter" "Gryffindor" "McGonagall" "Fall 2015"])
    by (vm_compute; reflexivity).
  assert (H2 : Forall (fun e' => full_name e' <> "Cho Chang")
    [mk_entry "Harry" "Potter" "Gryffindor" "McGonagall" "Fall 2015"])
    by (repeat constructor; vm_compute; congruence).
  assert (H3 : parse_entry "Cho|Chang|Ravenclaw|Flitwick|Fall 2015" =
    Some (mk_entry "Cho" "Chang" "Ravenclaw" "Flitwick" "Fall 2015"))
    by (vm_compute; reflexivity).
  assert (H4 : full_name (mk_entry "Cho" "Chang" "Ravenclaw" "Flitwick" "Fall 2015") =
    "Cho Chang") by reflexivity.
  split_and!; [exact H1|exact H2|exact H3|exact H4|].
  exact (get_cohort_for_first _ _ ["malformed"] _ _ _ H1 H2 H3 H4).
Defined.

Lemma get_cohort_for_raises_witness :
  (exists err, get_cohort_for ["Harry|Potter"; "Cho|Chang|Ravenclaw|Flitwick|Fall 2015"]
                 "Cho Chang" = Err err).
Proof.
  apply get_cohort_for_raises.
  exists [], "Harry|Potter", ["Cho|Chang|Ravenclaw|Flitwick|Fall 2015"], [].
  split_and!; [reflexivity|reflexivity|constructor|vm_compute; reflexivity].
Defined.

End CohortFor.
