(* ===== verification/Houses.v ===== *)
(** * [all_houses] and [all_names_by_house] (src/cohort_data.py, lines 4-30
      and 80-146)

    [all_houses] collects the non-empty third fields of the raw lines (it is
    the one query that does not strip the line and reads no field past the
    third).  [all_names_by_house] files each line's full name under the
    first of seven rosters its house, then its cohort, selects, and sorts
    the rosters. *)

From S2P Require Import Prelude PyStr RosterSpec.
From stdpp Require Import list_monad.
Local Open Scope string_scope.
Local Open Scope list_scope.

Module AllHouses.
Import Roster.

(** The body of [for line in file:]: [house = line.split('|')[2]];
    [if house: houses.add(house)]. *)
Definition all_houses_body (houses : gset string) (line : string) : res (gset string) :=
  house ← (py_split pipe line).[2];
  Ok (if py_truthy house then {[house]} ∪ houses else houses).

Definition all_houses (file : list string) : res (gset string) :=
  py_for all_houses_body file ∅.

(** The third raw field of each line, when every line has one. *)
Definition raw_houses (file : list string) : option (list string) :=
  mapM (fun line => py_split pipe line !! 2) file.

Lemma py_truthy_false s : py_truthy s = false <-> s = "".
Proof. by destruct s. Qed.

Lemma all_houses_loop file acc :
  py_for all_houses_body file acc =
  match raw_houses file with
  | Some hs => Ok (acc ∪ list_to_set (filter (fun h => h <> "") hs))
  | None => Err IndexError
  end.
Proof.
  unfold raw_houses. revert acc. induction file as [|line file IH]; intros acc.
  { cbn. f_equal. set_solver. }
  cbn [py_for mapM]. unfold all_houses_body, py_index.
  destruct (py_split pipe line !! 2) as [h|]; cbn [mbind res_bind option_bind]; [|done].
  rewrite IH. destruct (mapM _ file) as [hs|];
    cbn [mbind option_bind mret option_ret res_bind]; [|done].
  f_equal. rewrite filter_cons. destruct (py_truthy h) eqn:Eh.
  - rewrite decide_True by (intros ->; done). set_solver.
  - apply py_truthy_false in Eh as ->.
    rewrite decide_False by (intros Hne; by apply Hne). set_solver.
Qed.

Lemma all_houses_raw_spec file :
  all_houses file =
  match raw_houses file with
  | Some hs => Ok (list_to_set (filter (fun h => h <> "") hs))
  | None => Err IndexError
  end.
Proof.
  unfold all_houses. rewrite all_houses_loop.
  destruct (raw_houses file); [f_equal; set_solver|done].
Qed.

(** On a parsed line, the raw third field is the house. *)
Lemma raw_house_parsed line e :
  parse_entry line = Some e -> py_split pipe line !! 2 = Some (house e).
Proof.
  intros He. destruct (parse_entry_Some _ _ He) as (_ & _ & H2 & _ & _ & Hlen).
  rewrite <- fields_lookup_raw by lia. by apply py_index_Ok.
Qed.

(** C16: refinement.  On a file that parses, [all_houses] is
    [Roster.houses]: the set of the non-empty house fields. *)
Theorem all_houses_correct file es :
  parse_roster file = Some es -> all_houses file = Ok (houses es).
Proof.
  intros Hp. rewrite all_houses_raw_spec.
  assert (raw_houses file = Some (house <$> es)) as ->; [|done].
  apply mapM_Some_2, Forall2_fmap_r. apply mapM_Some_1 in Hp.
  eapply Forall2_impl; [exact Hp|]. apply raw_house_parsed.
Qed.

(** C17: whatever the file holds, the empty string is never in the set
    [all_houses] returns (an invariant of its loop). *)
Theorem all_houses_no_empty file s : all_houses file = Ok s -> "" ∉ s.
Proof.
  unfold all_houses. intros H.
  refine (py_for_invariant all_houses_body (fun s => "" ∉ s) _ file ∅ s _ H);
    [|set_solver].
  intros acc line acc' Hacc Hbody. unfold all_houses_body in Hbody.
  res_inv. destruct (py_truthy a) eqn:Ea; [|done].
  rewrite elem_of_union, elem_of_singleton. intros [<-|]; [discriminate|done].
Qed.

(** C15: the exact behaviour of [all_houses] on every file: the set of the
    non-empty third fields of the raw (unstripped) lines, or [IndexError]
    when some line has fewer than three fields.  A line of three fields is
    accepted, its newline then ending the house name. *)
Theorem all_houses_exact file :
  all_houses file =
  match raw_houses file with
  | Some hs => Ok (list_to_set (filter (fun h => h <> "") hs))
  | None => Err IndexError
  end.
Proof. apply all_houses_raw_spec. Qed.

(** Witnesses. *)
Lemma all_houses_correct_witness :
  parse_roster sample_file = Some sample_entries /\
  all_houses sample_file = Ok (houses sample_entries).
Proof.
  assert (Hp : parse_roster sample_file = Some sample_entries) by (vm_compute; reflexivity).
  split; [exact Hp|exact (all_houses_correct _ _ Hp)].
Defined.

Lemma all_houses_no_empty_witness :
  all_houses sample_file =
    Ok {[ "Gryffindor"; "Ravenclaw"; "Dumbledore's Army" ]} /\
  "" ∉ ({[ "Gryffindor"; "Ravenclaw"; "Dumbledore's Army" ]} : gset string).
Proof.
  assert (H : all_houses sample_file =
    Ok {[ "Gryffindor"; "Ravenclaw"; "Dumbledore's Army" ]}) by (vm_compute; reflexivity).
  split; [exact H|exact (all_houses_no_empty _ _ H)].
Defined.

End AllHouses.

Module NamesByHouse.
Import Roster.

(** [rosters = [dumbledores_army, gryffindor, ..., instructors]] holds the
    seven lists themselves, so appending to a named list appends to its
    entry of [rosters]: the state is [rosters], and each name is a
    position in it. *)
Definition dumbledores_army := 0.
Definition gryffindor := 1.
Definition hufflepuff := 2.
Definition ravenclaw := 3.
Definition slytherin := 4.
Definition ghosts := 5.
Definition instructors := 6.

Definition empty_rosters : list (list string) := [[]; []; []; []; []; []; []].

(** [rosters[i].append(x)]. *)
Definition py_append (i : nat) (x : string) (rosters : list (list string)) :
    list (list string) :=
  alter (fun r => r ++ [x]) i rosters.

(** The body of [for line in file:], its [if]/[elif] chain included. *)
Definition all_names_by_house_body (rosters : list (list string)) (line : string) :
    res (list (list string)) :=
  let data := fields line in
  d0 ← data.[0]; d1 ← data.[1]; house ← data.[2]; advisor ← data.[3];
  cohort ← data.[4];
  let full_name := py_full_name d0 d1 in
  Ok (if decide (house = "Dumbledore's Army") then py_append dumbledores_army full_name rosters
      else if decide (house = "Gryffindor") then py_append gryffindor full_name rosters
      else if decide (house = "Hufflepuff") then py_append hufflepuff full_name rosters
      else if decide (house = "Ravenclaw") then py_append ravenclaw full_name rosters
      else if decide (house = "Slytherin") then py_append slytherin full_name rosters
      else if decide (cohort = "G") then py_append ghosts full_name rosters
      else if decide (cohort = "I") then py_append instructors full_name rosters
      else rosters).

(** The loop, then [for item in rosters: item.sort()]. *)
Definition all_names_by_house (file : list string) : res (list (list string)) :=
  rosters ← py_for all_names_by_house_body file empty_rosters;
  Ok (py_sorted <$> (rosters : list (list string))).

(** The position of each roster in [rosters]. *)
Definition kind_index (k : roster_kind) : nat :=
  match k with
  | DumbledoresArmy => dumbledores_army | Gryffindor => gryffindor
  | Hufflepuff => hufflepuff | Ravenclaw => ravenclaw | Slytherin => slytherin
  | Ghosts => ghosts | Instructors => instructors
  end.

Definition names_step (rosters : list (list string)) (e : entry) : list (list string) :=
  match classify e with
  | Some k => py_append (kind_index k) (full_name e) rosters
  | None => rosters
  end.

Lemma names_body_parsed acc line e :
  parse_entry line = Some e -> all_names_by_house_body acc line = Ok (names_step acc e).
Proof.
  intros He. unfold all_names_by_house_body, names_step, classify. read_fields He.
  f_equal. by repeat case_decide.
Qed.

Lemma names_body_unparsed acc line :
  parse_entry line = None -> all_names_by_house_body acc line = Err IndexError.
Proof. intros He. unfold all_names_by_house_body. unparsed_raises He. Qed.

(** After the loop, position [i] holds the names filed under the roster at
    [i], in file order. *)
Lemma names_loop_lookup es acc i :
  foldl names_step acc es !! i =
  (fun r => r ++ (full_name <$> filter (fun e => kind_index <$> classify e = Some i) es))
    <$> acc !! i.
Proof.
  revert acc. induction es as [|e es IH]; intros acc; cbn [foldl].
  { destruct (acc !! i); cbn; by rewrite ?app_nil_r. }
  rewrite IH, filter_cons. unfold names_step, py_append.
  destruct (classify e) as [k|]; cbn [fmap option_fmap option_map].
  - destruct (decide (kind_index k = i)) as [<-|Hne].
    + rewrite list_lookup_alter_eq. destruct (acc !! kind_index k); cbn; [|done].
      case_decide; [|done]. by rewrite <- app_assoc.
    + rewrite list_lookup_alter_ne by done. case_decide; [congruence|done].
  - case_decide; [done|]. done.
Qed.

Lemma names_by_house_refines file es :
  parse_roster file = Some es -> all_names_by_house file = Ok (names_by_house es).
Proof.
  intros Hp. unfold all_names_by_house.
  rewrite (py_for_parsed _ names_step _ es _ Hp) by (intros; by apply names_body_parsed).
  cbn [mbind res_bind]. f_equal. apply list_eq. intros i.
  rewrite list_lookup_fmap, names_loop_lookup. unfold names_by_house, roster_of.
  rewrite list_lookup_fmap.
  destruct i as [|[|[|[|[|[|[|i]]]]]]]; cbn [lookup list_lookup empty_rosters roster_order];
    cbn [fmap option_fmap option_map app]; [..|done];
    do 3 f_equal; apply list_filter_iff; intros e;
    destruct (classify e) as [[]|]; cbn; naive_solver.
Qed.

Lemma names_by_house_raises file :
  parse_roster file = None -> all_names_by_house file = Err IndexError.
Proof.
  intros Hp. unfold all_names_by_house.
  rewrite (py_for_unparsed _ _ _ Hp); [done|apply names_body_unparsed|].
  intros acc line e He. eexists. by apply names_body_parsed.
Qed.

#[export] Instance roster_of_proper k : Proper ((≡ₚ) ==> (=)) (roster_of k).
Proof. intros es1 es2 Hes. unfold roster_of. by rewrite Hes. Qed.

(** C20: [all_names_by_house] raises [IndexError] on a file with a line of
    fewer than five fields. *)
Theorem all_names_by_house_unparsed file :
  parse_roster file = None -> all_names_by_house file = Err IndexError.
Proof. apply names_by_house_raises. Qed.

(** C9: whatever the file, a result of [all_names_by_house] is seven
    rosters (the length of [rosters] is a loop invariant), each sorted. *)
Theorem all_names_by_house_shape file rs :
  all_names_by_house file = Ok rs -> length rs = 7 /\ Forall (Sorted String.le) rs.
Proof.
  unfold all_names_by_house. intros H. res_inv.
  split; [|apply Forall_fmap, Forall_true; intros; apply py_sort_sorted].
  rewrite length_fmap.
  refine (py_for_invariant all_names_by_house_body (fun rs => length rs = 7) _
    file empty_rosters _ eq_refl E).
  intros acc line acc' Hlen Hbody. unfold all_names_by_house_body in Hbody.
  res_inv. unfold py_append. by repeat case_decide; rewrite ?length_alter.
Qed.

Lemma roster_of_length k es :
  length (roster_of k es) = length (filter (fun e => classify e = Some k) es).
Proof. unfold roster_of. by rewrite (Permutation_length (py_sort_perm _)), length_fmap. Qed.

(** Every entry is filed under at most one roster. *)
Lemma roster_sizes es :
  sum_list ((fun k => length (filter (fun e => classify e = Some k) es)) <$> roster_order) +
  length (filter (fun e => classify e = None) es) = length es.
Proof.
  induction es as [|e es IH]; [done|].
  cbn [roster_order fmap list_fmap sum_list] in *. rewrite !filter_cons.
  destruct (classify e) as [[]|]; repeat (case_decide; try congruence);
    cbn [length id] in *; lia.
Qed.

(** C7: refinement.  On a file that parses, [all_names_by_house] is
    [Roster.names_by_house]: seven sorted rosters in the fixed order, each
    entry filed under the first roster its house, then its cohort
    (["G"], ["I"]) selects, or under none. *)
Theorem all_names_by_house_correct file es :
  parse_roster file = Some es -> all_names_by_house file = Ok (names_by_house es).
Proof. apply names_by_house_refines. Qed.

(** C8: on a file that parses, the rosters of [all_names_by_house] hold
    as many names as the file has lines, less the lines filed under no
    roster: no line is filed twice. *)
Theorem all_names_by_house_count file es rs :
  parse_roster file = Some es -> all_names_by_house file = Ok rs ->
  sum_list (length <$> rs) + length (filter (fun e => classify e = None) es) = length file.
Proof.
  intros Hp Hr. rewrite (names_by_house_refines _ _ Hp) in Hr. injection Hr as <-.
  apply mapM_Some_1, Forall2_length in Hp as ->.
  rewrite <- (roster_sizes es). unfold names_by_house.
  cbn [roster_order fmap list_fmap sum_list]. by rewrite !roster_of_length.
Qed.

(** C24: the result of [all_names_by_house] does not depend on the order
    of the lines of the file: each roster is sorted at the end. *)
Theorem all_names_by_house_perm f1 f2 :
  f1 ≡ₚ f2 -> all_names_by_house f1 = all_names_by_house f2.
Proof.
  intros Hf. pose proof (parse_roster_perm f1 f2 Hf) as Hp.
  destruct (parse_roster f1) as [es1|] eqn:E1, (parse_roster f2) as [es2|] eqn:E2;
    try done.
  - rewrite (names_by_house_refines _ _ E1), (names_by_house_refines _ _ E2).
    f_equal. unfold names_by_house. apply list_fmap_ext; intros _ k _. by rewrite Hp.
  - by rewrite !names_by_house_raises.
Qed.
(** Witnesses. *)
Lemma all_names_by_house_correct_witness :
  parse_roster sample_file = Some sample_entries /\
  all_names_by_house sample_file = Ok (names_by_house sample_entries).
Proof.
  assert (Hp : parse_roster sample_file = Some sample_entries) by (vm_compute; reflexivity).
  split; [exact Hp|exact (all_names_by_house_correct _ _ Hp)].
Defined.

Lemma all_names_by_house_count_witness :
  parse_roster sample_file = Some sample_entries /\
  all_names_by_house sample_file = Ok (names_by_house sample_entries) /\
  sum_list (length <$> names_by_house sample_entries) +
    length (filter (fun e => classify e = None) sample_entries) = length sample_file.
Proof.
  assert (Hp : parse_roster sample_file = Some sample_entries) by (vm_compute; reflexivity).
  assert (Hr : all_names_by_house sample_file = Ok (names_by_house sample_entries))
    by (vm_compute; reflexivity).
  split_and!; [exact Hp|exact Hr|exact (all_names_by_house_count _ _ _ Hp Hr)].
Defined.

Lemma all_names_by_house_shape_witness :
  all_names_by_house sample_file = Ok (names_by_house sample_entries) /\
  length (names_by_house sample_entries) = 7 /\
  Forall (Sorted String.le) (names_by_house sample_entries).
Proof.
  assert (Hr : all_names_by_house sample_file = Ok (names_by_house sample_entries))
    by (vm_compute; reflexivity).
  split; [exact Hr|exact (all_names_by_house_shape _ _ Hr)].
Defined.

Lemma all_names_by_house_perm_witness :
  sample_file ≡ₚ reverse sample_file /\
  all_names_by_house sample_file = all_names_by_house (reverse sample_file).
Proof.
  assert (Hf : sample_file ≡ₚ reverse sample_file) by (symmetry; apply reverse_Permutation).
  split; [exact Hf|exact (all_names_by_house_perm _ _ Hf)].
Defined.

Lemma all_names_by_house_unparsed_witness :
  parse_roster ["Harry|Potter|Gryffindor"] = None /\
  all_names_by_house ["Harry|Potter|Gryffindor"] = Err IndexError.
Proof.
  assert (Hp : parse_roster ["Harry|Potter|Gryffindor"] = None) by (vm_compute; reflexivity).
  split; [exact Hp|exact (all_names_by_house_unparsed _ Hp)].
Defined.

End NamesByHouse.
