(* ===== verification/Dupes.v ===== *)
(** * [find_duped_last_names] (src/cohort_data.py, lines 214-241)

    The loop keeps the list [last_names] of the last names seen once and
    the set [dupes] of those seen again.  Its invariant ([dupes_invariant])
    says that after a prefix of the file, [last_names] holds each name of
    the prefix once and [dupes] the names occurring twice or more. *)

From S2P Require Import Prelude PyStr RosterSpec.
From stdpp Require Import list_monad.
Local Open Scope string_scope.
Local Open Scope list_scope.

Module DupedLastNames.
Import Roster.

(** The body of [for line in file:]: [lname = data[1]]; [if lname in
    last_names: dupes.add(lname)], else [last_names.append(lname)]. *)
Definition find_duped_body (st : list string * gset string) (line : string) :
    res (list string * gset string) :=
  let '(last_names, dupes) := st in
  let data := fields line in
  lname ← data.[1];
  Ok (if decide (lname ∈ last_names) then (last_names, {[lname]} ∪ dupes)
      else (last_names ++ [lname], dupes)).

Definition find_duped_last_names (file : list string) : res (gset string) :=
  st ← py_for find_duped_body file ([], ∅);
  Ok st.2.

(** One step of the loop on the last name read. *)
Definition dupes_step (st : list string * gset string) (lname : string) :
    list string * gset string :=
  if decide (lname ∈ st.1) then (st.1, {[lname]} ∪ st.2) else (st.1 ++ [lname], st.2).

(** The last name of every line, when every line has two fields. *)
Definition last_names_of (file : list string) : option (list string) :=
  mapM (fun line => fields line !! 1) file.

Lemma find_duped_body_read st line :
  find_duped_body st line = (lname ← (fields line).[1]; Ok (dupes_step st lname)).
Proof. destruct st. unfold find_duped_body. by destruct ((fields line).[1]). Qed.

(** The loop invariant. *)
Definition dupes_invariant (seen : list string) (st : list string * gset string) : Prop :=
  (forall x, x ∈ st.1 <-> x ∈ seen) /\ NoDup st.1 /\
  (forall x, x ∈ st.2 <-> 2 <= occurrences x seen).

Lemma dupes_invariant_step seen st y :
  dupes_invariant seen st -> dupes_invariant (seen ++ [y]) (dupes_step st y).
Proof.
  intros (Hmem & Hnd & Hd). unfold dupes_step.
  destruct (decide (y ∈ st.1)) as [Hy|Hy]; split_and!; cbn.
  - intros x. rewrite elem_of_app, list_elem_of_singleton.
    pose proof (Hmem x). pose proof (Hmem y). naive_solver.
  - done.
  - intros x. rewrite elem_of_union, elem_of_singleton, Hd, occurrences_snoc.
    apply Hmem, occurrences_pos in Hy. case_decide; subst; [|naive_solver lia].
    split; [intros [_|]; lia|by left].
  - intros x. rewrite !elem_of_app, !list_elem_of_singleton.
    pose proof (Hmem x). naive_solver.
  - apply NoDup_app. split_and!; [done| |apply NoDup_singleton].
    intros x Hx ->%list_elem_of_singleton. done.
  - intros x. rewrite Hd, occurrences_snoc. case_decide; [|lia]. subst.
    assert (occurrences x seen = 0); [|lia].
    destruct (occurrences x seen) eqn:E; [done|].
    exfalso. apply Hy, Hmem, occurrences_pos. lia.
Qed.

Lemma dupes_loop_invariant lnames :
  dupes_invariant lnames (foldl dupes_step ([], ∅) lnames).
Proof.
  induction lnames as [|y l IH] using rev_ind.
  - split; [|split]; cbn; [done|constructor|].
    intros x. unfold occurrences. cbn. split; [set_solver|lia].
  - rewrite foldl_app. cbn [foldl]. by apply dupes_invariant_step.
Qed.

Lemma dupes_spec file :
  match last_names_of file with
  | Some lnames =>
      exists s, find_duped_last_names file = Ok s /\
        forall x, x ∈ s <-> 2 <= occurrences x lnames
  | None => find_duped_last_names file = Err IndexError
  end.
Proof.
  unfold find_duped_last_names, last_names_of.
  rewrite (py_for_read fields 1 dupes_step) by apply find_duped_body_read.
  destruct (mapM _ file) as [lnames|]; [|done]. cbn.
  eexists; split; [done|]. apply dupes_loop_invariant.
Qed.

(** A set of names each occurring twice in [l] has at most half as many
    members as [l]. *)
Lemma size_twice_occurring (s : gset string) l :
  (forall x, x ∈ s -> 2 <= occurrences x l) -> 2 * size s <= length l.
Proof.
  intros Hs. rewrite <- (occurrences_sum (elements s) l) by apply NoDup_elements.
  unfold size, set_size. cbn.
  assert (Forall (fun x => 2 <= occurrences x l) (elements s)) as Hf
    by (apply Forall_forall; intros x Hx%elem_of_elements; auto).
  clear Hs. induction Hf; cbn; lia.
Qed.

(** C14: refinement.  On a file that parses, [find_duped_last_names] is
    [Roster.duped]: the set of the last names borne by two lines or more. *)
Theorem find_duped_last_names_correct file es :
  parse_roster file = Some es -> find_duped_last_names file = Ok (duped es).
Proof.
  intros Hp. pose proof (dupes_spec file) as Hx.
  assert (last_names_of file = Some (last_name <$> es)) as Hl.
  { apply mapM_Some_2, Forall2_fmap_r. apply mapM_Some_1 in Hp.
    eapply Forall2_impl; [exact Hp|]. intros line e He.
    destruct (parse_entry_Some _ _ He) as (_ & H1 & _). by apply py_index_Ok. }
  rewrite Hl in Hx. destruct Hx as (s & -> & Hs). f_equal.
  apply set_eq. intros x. unfold duped. rewrite Hs, elem_of_list_to_set, list_elem_of_filter.
  split; [|naive_solver]. intros H. split; [done|].
  apply occurrences_pos. lia.
Qed.

(** C13: the exact behaviour of [find_duped_last_names] on every file: a
    last name is in the result exactly when it occurs twice or more (a set:
    three occurrences still give one member), or [IndexError] when a line
    has no second field. *)
Theorem find_duped_last_names_exact file :
  match last_names_of file with
  | Some lnames =>
      exists s, find_duped_last_names file = Ok s /\
        forall x, x ∈ s <-> 2 <= occurrences x lnames
  | None => find_duped_last_names file = Err IndexError
  end.
Proof. apply dupes_spec. Qed.

(** C25: bounds.  Whatever the file, a result of [find_duped_last_names]
    holds at most half as many names as the file has lines: each member is
    the last name of two lines or more. *)
Theorem find_duped_last_names_bound file s :
  find_duped_last_names file = Ok s -> 2 * size s <= length file.
Proof.
  pose proof (dupes_spec file) as Hx. unfold last_names_of in Hx.
  destruct (mapM _ file) as [lnames|] eqn:Hl; [|by rewrite Hx].
  destruct Hx as (s' & -> & Hs). intros [= <-].
  apply mapM_Some_1, Forall2_length in Hl as ->.
  apply size_twice_occurring. naive_solver.
Qed.

(** Witnesses. *)
Lemma find_duped_last_names_correct_witness :
  parse_roster sample_file = Some sample_entries /\
  find_duped_last_names sample_file = Ok (duped sample_entries).
Proof.
  assert (Hp : parse_roster sample_file = Some sample_entries) by (vm_compute; reflexivity).
  split; [exact Hp|exact (find_duped_last_names_correct _ _ Hp)].
Defined.

Lemma find_duped_last_names_bound_witness :
  find_duped_last_names ["Ron|Weasley"; "Ginny|Weasley"; "Harry|Potter"] =
    Ok {[ "Weasley" ]} /\
  2 * size ({[ "Weasley" ]} : gset string) <= length ["Ron|Weasley"; "Ginny|Weasley"; "Harry|Potter"].
Proof.
  assert (H : find_duped_last_names ["Ron|Weasley"; "Ginny|Weasley"; "Harry|Potter"] =
    Ok {[ "Weasley" ]}) by (vm_compute; reflexivity).
  split; [exact H|exact (find_duped_last_names_bound _ _ H)].
Defined.

End DupedLastNames.
